(** * BlinkyTape: the host-side serial driver of [python_example/blinkytape.py]

    A shallow embedding of the [BlinkyTape] class.  The module is Python 2:
    its strings are byte strings, [chr] makes one byte of a code below 256
    and [ord] reads it back.  The Python object is a record that is
    threaded through every method; the PySerial port it owns is a log of
    the calls made on it together with the bytes the device has queued for
    reading.  Python exceptions are outcomes of the monad, and the object
    state reached when an exception leaves a method stays observable, as it
    does in Python. *)

From Stdlib Require Import ZArith Lia.
From Stdlib.Strings Require Import Byte.
From stdpp Require Import list.

Local Open Scope Z_scope.

(** ** Python values *)

(** The exceptions the methods can raise. *)
Inductive exn : Type :=
| RuntimeError   (* raise RuntimeError("Attempting to set pixel outside range!") *)
| ValueError     (* chr() arg not in range(256) *)
| IndexError.    (* string index out of range *)

(** What a call ends in.  [Blocked] is a [serial.read] on a port opened
    without a timeout (as the constructor opens it) for which the device
    never sends enough bytes: the call does not return. *)
Inductive outcome (A : Type) : Type :=
| Ok (a : A)
| Raise (e : exn)
| Blocked.

Arguments Ok {A} a.
Arguments Raise {A} e.
Arguments Blocked {A}.

(** ** The serial port *)

(** One call on the [serial.Serial] object. *)
Inductive event : Type :=
| Write (data : list byte)
| Flush
| Read (size : nat)
| FlushInput.

(** [log] is the calls made so far, oldest first; [rx] is what the device
    has queued for the host to read. *)
Record Serial : Type := mkSerial {
  log : list event;
  rx : list byte
}.

(** The bytes put on the wire: the payloads of the writes, in order. *)
Fixpoint wire (l : list event) : list byte :=
  match l with
  | [] => []
  | Write data :: l' => data ++ wire l'
  | _ :: l' => wire l'
  end.

(** The write calls of a log, one payload per call. *)
Fixpoint writes (l : list event) : list (list byte) :=
  match l with
  | [] => []
  | Write data :: l' => data :: writes l'
  | _ :: l' => writes l'
  end.

(** ** The driver object *)

Record BlinkyTape : Type := mkBlinkyTape {
  ledCount : Z;          (* Number of LEDs on the BlinkyTape *)
  buffered : bool;       (* buffer output data before sending *)
  buf : list byte;       (* Color data to send *)
  serial : Serial
}.

(** [__init__] with an explicit port: [buf] starts empty, the port is
    fresh.  [input] is what the device will have queued for reading. *)
Definition init (ledCount : Z) (buffered : bool) (input : list byte) : BlinkyTape :=
  mkBlinkyTape ledCount buffered [] (mkSerial [] input).

(** ** The method monad: state of [self], exceptions, blocked reads *)

Definition M (A : Type) : Type := BlinkyTape -> outcome A * BlinkyTape.

Definition ret {A} (a : A) : M A := fun self => (Ok a, self).

Definition raise {A} (e : exn) : M A := fun self => (Raise e, self).

Definition bind {A B} (m : M A) (k : A -> M B) : M B :=
  fun self =>
    match m self with
    | (Ok a, self') => k a self'
    | (Raise e, self') => (Raise e, self')
    | (Blocked, self') => (Blocked, self')
    end.

Notation "x <- m ;; k" := (bind m (fun x => k))
  (at level 100, m at next level, right associativity).
Notation "m ;;; k" := (bind m (fun _ => k))
  (at level 100, right associativity).

Definition gets {A} (f : BlinkyTape -> A) : M A := fun self => (Ok (f self), self).

Definition set_buf (b : list byte) : M unit :=
  fun self => (Ok tt, mkBlinkyTape (ledCount self) (buffered self) b (serial self)).

Definition on_serial (ev : event) (f : list byte -> list byte) : M unit :=
  fun self =>
    let s := serial self in
    (Ok tt, mkBlinkyTape (ledCount self) (buffered self) (buf self)
                         (mkSerial (log s ++ [ev]) (f (rx s)))).

Definition serial_write (data : list byte) : M unit := on_serial (Write data) id.

Definition serial_flush : M unit := on_serial Flush id.

(** [flushInput] discards what is waiting in the input buffer. *)
Definition serial_flushInput : M unit := on_serial FlushInput (fun _ => []).

(** [serial.read(size)] with no timeout: returns exactly [size] bytes, or
    never returns. *)
Definition serial_read (size : nat) : M (list byte) :=
  fun self =>
    let s := serial self in
    let called := log s ++ [Read size] in
    let port input := mkBlinkyTape (ledCount self) (buffered self) (buf self)
                                   (mkSerial called input) in
    if (size <=? length (rx s))%nat
    then (Ok (take size (rx s)), port (drop size (rx s)))
    else (Blocked, port (rx s)).

(** ** Built-ins *)

(** [chr(i)]: the one-character string of code [i]; [ValueError] outside
    [range(256)]. *)
Definition chr (i : Z) : M byte :=
  if (0 <=? i) && (i <? 256)
  then match Byte.of_N (Z.to_N i) with
       | Some c => ret c
       | None => raise ValueError
       end
  else raise ValueError.

(** [ord(c)]. *)
Definition ord (c : byte) : Z := Z.of_N (Byte.to_N c).

(** [s[i]] on a string. *)
Definition index (s : list byte) (i : nat) : M byte :=
  match s !! i with
  | Some c => ret c
  | None => raise IndexError
  end.

(** [for x in xs: body(x)]. *)
Fixpoint for_each {A} (xs : list A) (body : A -> M unit) : M unit :=
  match xs with
  | [] => ret tt
  | x :: xs' => body x ;;; for_each xs' body
  end.

(** [for x in xs: acc = body(acc, x)], for loops that build up a local. *)
Fixpoint for_fold {A S} (xs : list A) (body : S -> A -> M S) (acc : S) : M S :=
  match xs with
  | [] => ret acc
  | x :: xs' => acc' <- body acc x ;; for_fold xs' body acc'
  end.

(** [range(0, n)]. *)
Definition range (n : Z) : list Z := map Z.of_nat (seq 0 (Z.to_nat n)).

(** ** The pixel stream *)

Definition pixel : Type := Z * Z * Z.

(** [sendPixel(self, r, g, b)]. *)
Definition sendPixel (r g b : Z) : M unit :=
  let r := if r <? 0 then 0 else r in
  let g := if g <? 0 then 0 else g in
  let b := if b <? 0 then 0 else b in
  let r := if 255 <=? r then 254 else r in
  let g := if 255 <=? g then 254 else g in
  let b := if 255 <=? b then 254 else b in
  cr <- chr r ;; cg <- chr g ;; cb <- chr b ;;
  let data := [cr; cg; cb] in
  limit <- gets ledCount ;;
  if Z.of_nat (length data) * 3 <? limit
  then
    buffering <- gets buffered ;;
    if buffering
    then pending <- gets buf ;; set_buf (pending ++ data)
    else serial_write data ;;; serial_flush
  else raise RuntimeError.

(** [show(self)]. *)
Definition show : M unit :=
  c0 <- chr 0 ;; c1 <- chr 0 ;; c2 <- chr 255 ;;
  let control := [c0; c1; c2] in
  buffering <- gets buffered ;;
  (if buffering
   then pending <- gets buf ;; serial_write (pending ++ control) ;;; set_buf []
   else serial_write control) ;;;
  serial_flush ;;;
  serial_flushInput.

(** The first [send_list] of the class body.  The class defines the name
    twice, so this one is replaced before any call can reach it. *)
Definition send_list_shadowed (colors : list pixel) : M unit :=
  limit <- gets ledCount ;;
  if limit <? Z.of_nat (length colors)
  then raise RuntimeError
  else
    for_each colors (fun '(r, g, b) => sendPixel r g b) ;;;
    show.

(** [send_list(self, colors)], the definition in effect. *)
Definition send_list (colors : list pixel) : M unit :=
  data <- for_fold colors (fun data '(r, g, b) =>
            let r := if 255 <=? r then 254 else r in
            let g := if 255 <=? g then 254 else g in
            let b := if 255 <=? b then 254 else b in
            cr <- chr r ;; cg <- chr g ;; cb <- chr b ;;
            ret (data ++ [cr; cg; cb])) [] ;;
  serial_write data ;;;
  show.

(** [displayColor(self, r, g, b)]. *)
Definition displayColor (r g b : Z) : M unit :=
  limit <- gets ledCount ;;
  for_each (range limit) (fun _ => sendPixel r g b) ;;;
  show.

(** The pixel loop of a frame. *)
Definition send_pixels (colors : list pixel) : M unit :=
  for_each colors (fun '(r, g, b) => sendPixel r g b).

(** A caller that sends a frame pixel by pixel and shows it, as the
    example loop at the end of the module does. *)
Definition send_frame (colors : list pixel) : M unit :=
  send_pixels colors ;;;
  show.

(** ** Commands *)

(** [sendCommand(self, command)].  The [time.sleep(.01)] between the
    flush and the first read has no effect on the port and is left out. *)
Definition sendCommand (command : list byte) : M (bool * list byte) :=
  controlEscapeSequence <-
    for_fold (range 10) (fun s _ => c <- chr 255 ;; ret (s ++ [c])) [] ;;
  serial_write controlEscapeSequence ;;;
  serial_write command ;;;
  serial_flush ;;;
  header <- serial_read 2 ;;
  h0 <- index header 0 ;;
  let status := Byte.eqb h0 "P"%byte in
  h1 <- index header 1 ;;
  returnData <- serial_read (Z.to_nat (ord h1 + 1)) ;;
  serial_flushInput ;;;
  ret (status, returnData).

(** [reloadAnimations(self)]. *)
Definition reloadAnimations : M unit :=
  c <- chr 0x02 ;;
  let command := [c] in
  sendCommand command ;;;
  ret tt.

(** [getFreeSpace(self)]. *)
Definition getFreeSpace : M Z :=
  c <- chr 0x10 ;;
  let command := [c] in
  reply <- sendCommand command ;;
  let '(status, returnData) := reply in
  let space := 0 in
  if status : bool
  then
    d0 <- index returnData 0 ;; let space := space + Z.shiftl (ord d0) 24 in
    d1 <- index returnData 1 ;; let space := space + Z.shiftl (ord d1) 16 in
    d2 <- index returnData 2 ;; let space := space + Z.shiftl (ord d2) 8 in
    d3 <- index returnData 3 ;; let space := space + Z.shiftl (ord d3) 0 in
    ret space
  else ret space.

(** [writeFilePage(self, sector, offset, data)]. *)
Definition writeFilePage (sector offset : Z) (data : list byte) : M bool :=
  if negb (length data =? 256)%nat
  then ret false
  else
    c <- chr 0x19 ;; let command := [c] in
    c <- chr (Z.land (Z.shiftr sector 24) 0xFF) ;; let command := command ++ [c] in
    c <- chr (Z.land (Z.shiftr sector 16) 0xFF) ;; let command := command ++ [c] in
    c <- chr (Z.land (Z.shiftr sector 8) 0xFF) ;; let command := command ++ [c] in
    c <- chr (Z.land sector 0xFF) ;; let command := command ++ [c] in
    c <- chr (Z.land (Z.shiftr offset 24) 0xFF) ;; let command := command ++ [c] in
    c <- chr (Z.land (Z.shiftr offset 16) 0xFF) ;; let command := command ++ [c] in
    c <- chr (Z.land (Z.shiftr offset 8) 0xFF) ;; let command := command ++ [c] in
    c <- chr (Z.land offset 0xFF) ;; let command := command ++ [c] in
    let command := command ++ data in
    reply <- sendCommand command ;;
    let '(status, returnData) := reply in
    ret status.

(** What [readFileData] hands back: the bare [False] of its guard, or the
    [(status, returnData)] tuple of [sendCommand]. *)
Inductive read_result : Type :=
| PyFalse
| PyTuple (status : bool) (returnData : list byte).

(** [readFileData(self, sector, offset, length)].  In the last byte
    [length - 1 & 0xFF] is [(length - 1) & 0xFF]: [-] binds tighter
    than [&]. *)
Definition readFileData (sector offset length : Z) : M read_result :=
  if 256 <? length
  then ret PyFalse
  else
    c <- chr 0x1A ;; let command := [c] in
    c <- chr (Z.land (Z.shiftr sector 24) 0xFF) ;; let command := command ++ [c] in
    c <- chr (Z.land (Z.shiftr sector 16) 0xFF) ;; let command := command ++ [c] in
    c <- chr (Z.land (Z.shiftr sector 8) 0xFF) ;; let command := command ++ [c] in
    c <- chr (Z.land sector 0xFF) ;; let command := command ++ [c] in
    c <- chr (Z.land (Z.shiftr offset 24) 0xFF) ;; let command := command ++ [c] in
    c <- chr (Z.land (Z.shiftr offset 16) 0xFF) ;; let command := command ++ [c] in
    c <- chr (Z.land (Z.shiftr offset 8) 0xFF) ;; let command := command ++ [c] in
    c <- chr (Z.land offset 0xFF) ;; let command := command ++ [c] in
    c <- chr (Z.land (length - 1) 0xFF) ;; let command := command ++ [c] in
    reply <- sendCommand command ;;
    let '(status, returnData) := reply in
    ret (PyTuple status returnData).

(** ** The other commands *)

(** [programAddress(self, address)]. *)
Definition programAddress (address : Z) : M unit :=
  c <- chr 0x01 ;; let command := [c] in
  c <- chr (Z.land (Z.shiftr address 8) 0xFF) ;; let command := command ++ [c] in
  c <- chr (Z.land address 0xFF) ;; let command := command ++ [c] in
  sendCommand command ;;;
  ret tt.

(** [getLargestFile(self)]. *)
Definition getLargestFile : M Z :=
  c <- chr 0x11 ;;
  let command := [c] in
  reply <- sendCommand command ;;
  let '(status, returnData) := reply in
  let space := 0 in
  if status : bool
  then
    d0 <- index returnData 0 ;; let space := space + Z.shiftl (ord d0) 24 in
    d1 <- index returnData 1 ;; let space := space + Z.shiftl (ord d1) 16 in
    d2 <- index returnData 2 ;; let space := space + Z.shiftl (ord d2) 8 in
    d3 <- index returnData 3 ;; let space := space + Z.shiftl (ord d3) 0 in
    ret space
  else ret space.

(** [getFileCount(self)]. *)
Definition getFileCount : M Z :=
  c <- chr 0x12 ;;
  let command := [c] in
  reply <- sendCommand command ;;
  let '(status, returnData) := reply in
  let space := 0 in
  if status : bool
  then
    d0 <- index returnData 0 ;; let space := space + Z.shiftl (ord d0) 24 in
    d1 <- index returnData 1 ;; let space := space + Z.shiftl (ord d1) 16 in
    d2 <- index returnData 2 ;; let space := space + Z.shiftl (ord d2) 8 in
    d3 <- index returnData 3 ;; let space := space + Z.shiftl (ord d3) 0 in
    ret space
  else ret space.

(** [getFirstFreeSector(self)]. *)
Definition getFirstFreeSector : M Z :=
  c <- chr 0x13 ;;
  let command := [c] in
  reply <- sendCommand command ;;
  let '(status, returnData) := reply in
  let sector := 0 in
  if status : bool
  then
    d0 <- index returnData 0 ;; let sector := sector + Z.shiftl (ord d0) 24 in
    d1 <- index returnData 1 ;; let sector := sector + Z.shiftl (ord d1) 16 in
    d2 <- index returnData 2 ;; let sector := sector + Z.shiftl (ord d2) 8 in
    d3 <- index returnData 3 ;; let sector := sector + Z.shiftl (ord d3) 0 in
    ret sector
  else ret sector.

(** [getIsFile(self, sector)]. *)
Definition getIsFile (sector : Z) : M (bool * Z) :=
  c <- chr 0x14 ;; let command := [c] in
  c <- chr (Z.land (Z.shiftr sector 24) 0xFF) ;; let command := command ++ [c] in
  c <- chr (Z.land (Z.shiftr sector 16) 0xFF) ;; let command := command ++ [c] in
  c <- chr (Z.land (Z.shiftr sector 8) 0xFF) ;; let command := command ++ [c] in
  c <- chr (Z.land sector 0xFF) ;; let command := command ++ [c] in
  reply <- sendCommand command ;;
  let '(status, returnData) := reply in
  let fileType := 0 in
  if status : bool
  then
    d0 <- index returnData 0 ;; let fileType := fileType + Z.shiftl (ord d0) 24 in
    d1 <- index returnData 1 ;; let fileType := fileType + Z.shiftl (ord d1) 16 in
    d2 <- index returnData 2 ;; let fileType := fileType + Z.shiftl (ord d2) 8 in
    d3 <- index returnData 3 ;; let fileType := fileType + Z.shiftl (ord d3) 0 in
    ret (status, fileType)
  else ret (status, fileType).

(** [deleteFile(self, sector)]. *)
Definition deleteFile (sector : Z) : M bool :=
  c <- chr 0x15 ;; let command := [c] in
  c <- chr (Z.land (Z.shiftr sector 24) 0xFF) ;; let command := command ++ [c] in
  c <- chr (Z.land (Z.shiftr sector 16) 0xFF) ;; let command := command ++ [c] in
  c <- chr (Z.land (Z.shiftr sector 8) 0xFF) ;; let command := command ++ [c] in
  c <- chr (Z.land sector 0xFF) ;; let command := command ++ [c] in
  reply <- sendCommand command ;;
  let '(status, returnData) := reply in
  ret status.

(** [createFile(self, fileType, fileLength)]. *)
Definition createFile (fileType fileLength : Z) : M (bool * Z) :=
  c <- chr 0x18 ;; let command := [c] in
  c <- chr (Z.land fileType 0xFF) ;; let command := command ++ [c] in
  c <- chr (Z.land (Z.shiftr fileLength 24) 0xFF) ;; let command := command ++ [c] in
  c <- chr (Z.land (Z.shiftr fileLength 16) 0xFF) ;; let command := command ++ [c] in
  c <- chr (Z.land (Z.shiftr fileLength 8) 0xFF) ;; let command := command ++ [c] in
  c <- chr (Z.land fileLength 0xFF) ;; let command := command ++ [c] in
  reply <- sendCommand command ;;
  let '(status, returnData) := reply in
  let sector := 0 in
  if status : bool
  then
    d0 <- index returnData 0 ;; let sector := sector + Z.shiftl (ord d0) 24 in
    d1 <- index returnData 1 ;; let sector := sector + Z.shiftl (ord d1) 16 in
    d2 <- index returnData 2 ;; let sector := sector + Z.shiftl (ord d2) 8 in
    d3 <- index returnData 3 ;; let sector := sector + Z.shiftl (ord d3) 0 in
    ret (status, sector)
  else ret (status, sector).

(** [flashErase(self)]. *)
Definition flashErase : M unit :=
  c <- chr 0x20 ;; let command := [c] in
  let command := command ++ ["E"%byte] in
  let command := command ++ ["e"%byte] in
  sendCommand command ;;;
  ret tt.

(** [flashRead(self, address, length)]. *)
Definition flashRead (address length : Z) : M (bool * list byte) :=
  c <- chr 0x21 ;; let command := [c] in
  c <- chr (Z.land (Z.shiftr address 24) 0xFF) ;; let command := command ++ [c] in
  c <- chr (Z.land (Z.shiftr address 16) 0xFF) ;; let command := command ++ [c] in
  c <- chr (Z.land (Z.shiftr address 8) 0xFF) ;; let command := command ++ [c] in
  c <- chr (Z.land (Z.shiftr address 0) 0xFF) ;; let command := command ++ [c] in
  c <- chr (Z.land (Z.shiftr length 24) 0xFF) ;; let command := command ++ [c] in
  c <- chr (Z.land (Z.shiftr length 16) 0xFF) ;; let command := command ++ [c] in
  c <- chr (Z.land (Z.shiftr length 8) 0xFF) ;; let command := command ++ [c] in
  c <- chr (Z.land (Z.shiftr length 0) 0xFF) ;; let command := command ++ [c] in
  sendCommand command.

(** ** The example at the end of the module *)

(** The body of [for pixel in range(0, 12)]: one frame of twelve pixels
    with the one at [pixel] lit, then a show.  The [time.sleep(.5)] after
    the show is left out. *)
Definition example_frame (pixel : Z) : M unit :=
  for_each (range 12)
    (fun pos => if pos =? pixel then sendPixel 0 0 255 else sendPixel 0 0 0) ;;;
  show.

(** One pass of [for pixel in range(0, 12)], the body of [while True]. *)
Definition example_pass : M unit := for_each (range 12) example_frame.

(** ** The encoder of the specification *)

(** The specification's clamp of one channel: values of 255 and above
    become 254, negative values become 0, the others stay. *)
Definition clamp (v : Z) : Z :=
  if v <? 0 then 0 else if 255 <=? v then 254 else v.

(** The byte of code [i]; only used below 256. *)
Definition byte_of (i : Z) : byte := default x00 (Byte.of_N (Z.to_N i)).

(** The specification's [encode(r, g, b)]: the three clamped channels. *)
Definition encode (r g b : Z) : list byte :=
  [byte_of (clamp r); byte_of (clamp g); byte_of (clamp b)].

(** The show sentinel (0, 0, 255). *)
Definition control : list byte := [x00; x00; xff].

(** The escape preamble of a command: ten bytes of value 255. *)
Definition preamble : list byte := replicate 10 xff.

(** A 32-bit field, most significant byte first, as byte values. *)
Definition be32 (n : Z) : list Z :=
  [n / 2 ^ 24 mod 256; n / 2 ^ 16 mod 256; n / 2 ^ 8 mod 256; n mod 256].

(** The number a string of byte values denotes, most significant first. *)
Definition be_value (l : list Z) : Z := fold_left (fun acc d => acc * 256 + d) l 0.

(** The specification's encoding of a whole frame. *)
Definition encode_all (colors : list pixel) : list byte :=
  flat_map (fun '(r, g, b) => encode r g b) colors.

(** What the specification asks of the byte value [c] sent for a channel
    value [v]. *)
Definition channel_clamped (v c : Z) : Prop :=
  0 <= c <= 254 /\ (255 <= v -> c = 254) /\ (v < 0 -> c = 0) /\ (0 <= v < 255 -> c = v).

(** Whether a pixel has a negative channel. *)
Definition has_negative (p : pixel) : bool :=
  let '(r, g, b) := p in (r <? 0) || (g <? 0) || (b <? 0).

(** ** States the statements speak about *)

(** [self] with [buf] replaced. *)
Definition with_buf (self : BlinkyTape) (pending : list byte) : BlinkyTape :=
  mkBlinkyTape (ledCount self) (buffered self) pending (serial self).

(** [self] after the calls [evs] on its port, with [input] left to read. *)
Definition called (self : BlinkyTape) (evs : list event) (input : list byte) : BlinkyTape :=
  mkBlinkyTape (ledCount self) (buffered self) (buf self)
               (mkSerial (log (serial self) ++ evs) input).

(** A buffered object [sb] and an immediate one [si] that went through the
    same calls: the bytes [si] has written are those [sb] has written
    followed by those it still holds in [buf]. *)
Definition sim (sb si : BlinkyTape) : Prop :=
  buffered sb = true /\ buffered si = false /\
  ledCount sb = ledCount si /\
  wire (log (serial si)) = wire (log (serial sb)) ++ buf sb.

(** A 16-bit field, most significant byte first, as byte values. *)
Definition be16 (n : Z) : list Z := [n / 2 ^ 8 mod 256; n mod 256].

(** The 32-bit number at the head of a reply's data. *)
Definition u32_at (returnData : list byte) : Z := be_value (map ord (take 4 returnData)).

(** The colors of the example's frame for [pixel]. *)
Definition example_colors (pixel : Z) : list (Z * Z * Z) :=
  map (fun pos => if pos =? pixel then (0, 0, 255) else (0, 0, 0)) (range 12).

(** The block that the commands with a 32-bit answer end in, with what is
    returned left open: [fin status value]. *)
Definition decode_reply {A} (fin : bool -> Z -> A) (reply : bool * list byte) : M A :=
  let '(status, returnData) := reply in
  let space := 0 in
  if status : bool
  then
    d0 <- index returnData 0 ;; let space := space + Z.shiftl (ord d0) 24 in
    d1 <- index returnData 1 ;; let space := space + Z.shiftl (ord d1) 16 in
    d2 <- index returnData 2 ;; let space := space + Z.shiftl (ord d2) 8 in
    d3 <- index returnData 3 ;; let space := space + Z.shiftl (ord d3) 0 in
    ret (fin status space)
  else ret (fin status space).

(** The calls [sendCommand] makes on the port when the reply is complete. *)
Definition round_trip (command : list byte) (size : nat) : list event :=
  [Write preamble; Write command; Flush; Read 2%nat; Read size; FlushInput].

(** ** Facts about the built-ins and the monad *)

Lemma chr_ok (i : Z) : 0 <= i < 256 -> chr i = ret (byte_of i).
Proof.
  intros Hi. unfold chr, byte_of.
  replace ((0 <=? i) && (i <? 256)) with true by (symmetry; apply andb_true_iff; lia).
  destruct (Byte.of_N (Z.to_N i)) as [c|] eqn:E; [reflexivity|].
  apply Byte.of_N_None_iff in E. lia.
Qed.

Lemma chr_out_of_range (i : Z) : i < 0 \/ 256 <= i -> chr i = raise ValueError.
Proof.
  intros Hi. unfold chr.
  replace ((0 <=? i) && (i <? 256)) with false; [reflexivity|].
  symmetry. apply andb_false_iff. lia.
Qed.

Lemma ord_byte_of (i : Z) : 0 <= i < 256 -> ord (byte_of i) = i.
Proof.
  intros Hi. unfold ord, byte_of.
  destruct (Byte.of_N (Z.to_N i)) as [c|] eqn:E.
  - apply Byte.to_of_N in E. simpl. lia.
  - apply Byte.of_N_None_iff in E. lia.
Qed.

Lemma ord_range (c : byte) : 0 <= ord c < 256.
Proof. unfold ord. pose proof (Byte.to_N_bounded c). lia. Qed.

Lemma byte_of_ord (c : byte) : byte_of (ord c) = c.
Proof. unfold byte_of, ord. rewrite N2Z.id, Byte.of_to_N. reflexivity. Qed.

Lemma ord_inj (c d : byte) : ord c = ord d -> c = d.
Proof. intros H. rewrite <- (byte_of_ord c), <- (byte_of_ord d). now f_equal. Qed.

Lemma clamp_range (v : Z) : 0 <= clamp v <= 254.
Proof. unfold clamp. repeat case_match; lia. Qed.

Lemma low_byte_range (n : Z) : 0 <= Z.land n 0xFF < 256.
Proof. change 0xFF with (Z.ones 8). rewrite Z.land_ones by lia. apply Z.mod_pos_bound. lia. Qed.

Lemma low_byte_mod (n : Z) : Z.land n 0xFF = n mod 256.
Proof. change 0xFF with (Z.ones 8). now rewrite Z.land_ones by lia. Qed.

Lemma shifted_byte (n k : Z) : 0 <= k -> Z.land (Z.shiftr n k) 0xFF = n / 2 ^ k mod 256.
Proof. intros Hk. now rewrite low_byte_mod, Z.shiftr_div_pow2. Qed.

Lemma be_value_be32 (n : Z) : 0 <= n < 2 ^ 32 -> be_value (be32 n) = n.
Proof.
  intros Hn. unfold be_value, be32. simpl.
  change (2 ^ 24) with (256 * (256 * 256)). change (2 ^ 16) with (256 * 256).
  change (2 ^ 8) with 256. change (2 ^ 32) with (256 * (256 * (256 * 256))) in Hn.
  rewrite <- !Z.div_div by lia.
  rewrite (Z.mod_small (n / 256 / 256 / 256)) by
    (split; [repeat apply Z.div_pos; lia | repeat apply Z.div_lt_upper_bound; lia]).
  pose proof (Z.div_mod n 256). pose proof (Z.div_mod (n / 256) 256).
  pose proof (Z.div_mod (n / 256 / 256) 256). lia.
Qed.

Lemma wire_app (l1 l2 : list event) : wire (l1 ++ l2) = wire l1 ++ wire l2.
Proof.
  induction l1 as [|ev l1 IH]; [reflexivity|].
  destruct ev; simpl; rewrite IH; try reflexivity. now rewrite app_assoc.
Qed.

Lemma writes_app (l1 l2 : list event) : writes (l1 ++ l2) = writes l1 ++ writes l2.
Proof.
  induction l1 as [|ev l1 IH]; [reflexivity|].
  destruct ev; simpl; now rewrite IH.
Qed.

Lemma wire_concat_writes (l : list event) : wire l = concat (writes l).
Proof. induction l as [|[] l IH]; simpl; congruence. Qed.

Lemma chr_clamped (v : Z) :
  chr (if 255 <=? (if v <? 0 then 0 else v) then 254 else if v <? 0 then 0 else v)
  = ret (byte_of (clamp v)).
Proof.
  unfold clamp. destruct (v <? 0) eqn:Hneg.
  - simpl. now apply chr_ok.
  - destruct (255 <=? v) eqn:Hbig; apply chr_ok; lia.
Qed.

(** [sendPixel] step by step: the guard compares 9, three times the
    length of the three-character [data], with [ledCount]. *)
Lemma sendPixel_run (r g b : Z) (self : BlinkyTape) :
  sendPixel r g b self =
  if 9 <? ledCount self
  then (Ok tt,
        if buffered self
        then with_buf self (buf self ++ encode r g b)
        else called self [Write (encode r g b); Flush] (rx (serial self)))
  else (Raise RuntimeError, self).
Proof.
  unfold sendPixel. cbv zeta. rewrite !chr_clamped.
  unfold bind, ret, gets, raise. simpl.
  change (Z.of_nat 3 * 3) with 9.
  destruct (9 <? ledCount self); [|reflexivity].
  destruct (buffered self) eqn:Hb; unfold with_buf, set_buf; [now rewrite Hb|].
  unfold serial_write, serial_flush, on_serial, called, encode. simpl.
  now rewrite Hb, <- app_assoc.
Qed.

Lemma show_run (self : BlinkyTape) :
  show self =
  (Ok tt,
   if buffered self
   then called (with_buf self []) [Write (buf self ++ control); Flush; FlushInput] []
   else called self [Write control; Flush; FlushInput] []).
Proof.
  unfold show. rewrite !chr_ok by lia.
  unfold bind, ret, gets. simpl.
  destruct (buffered self) eqn:Hb; simpl;
    unfold serial_write, serial_flush, serial_flushInput, set_buf, on_serial, called, with_buf;
    simpl; rewrite Hb, <- !app_assoc; reflexivity.
Qed.

Lemma length_encode_all (colors : list pixel) :
  length (encode_all colors) = (3 * length colors)%nat.
Proof. induction colors as [|[[r g] b] colors IH]; simpl; lia. Qed.

Lemma bind_ret {A B} (a : A) (k : A -> M B) : bind (ret a) k = k a.
Proof. reflexivity. Qed.

Lemma bind_run {A B} (m : M A) (k : A -> M B) (self self' : BlinkyTape) (a : A) :
  m self = (Ok a, self') -> bind m k self = k a self'.
Proof. intros H. unfold bind. now rewrite H. Qed.

Lemma bind_raise {A B} (m : M A) (k : A -> M B) (self self' : BlinkyTape) (e : exn) :
  m self = (Raise e, self') -> bind m k self = (Raise e, self').
Proof. intros H. unfold bind. now rewrite H. Qed.

(** With the guard open, the loop accepts every pixel, however many. *)
Lemma send_pixels_run (colors : list pixel) (self : BlinkyTape) :
  9 < ledCount self ->
  send_pixels colors self =
  (Ok tt,
   if buffered self
   then with_buf self (buf self ++ encode_all colors)
   else called self (flat_map (fun '(r, g, b) => [Write (encode r g b); Flush]) colors)
               (rx (serial self))).
Proof.
  revert self. induction colors as [|[[r g] b] colors IH]; intros self Hn.
  - unfold send_pixels, called, with_buf. simpl. rewrite !app_nil_r.
    destruct self as [n bf pending [l input]]. simpl. now destruct bf.
  - unfold send_pixels. simpl for_each.
    erewrite bind_run; [|rewrite sendPixel_run; apply Z.ltb_lt in Hn; rewrite Hn; reflexivity].
    fold (send_pixels colors). destruct (buffered self) eqn:Hb.
    + rewrite IH by exact Hn. unfold with_buf. simpl. rewrite Hb.
      now rewrite <- app_assoc.
    + rewrite IH by exact Hn. unfold called. simpl. rewrite Hb.
      now rewrite <- app_assoc.
Qed.

(** With the guard closed, the first pixel is refused and nothing is done. *)
Lemma send_pixels_refused (p : pixel) (colors : list pixel) (self : BlinkyTape) :
  ledCount self <= 9 ->
  send_pixels (p :: colors) self = (Raise RuntimeError, self).
Proof.
  intros Hn. destruct p as [[r g] b]. unfold send_pixels. simpl for_each.
  apply bind_raise. rewrite sendPixel_run.
  now replace (9 <? ledCount self) with false by (symmetry; apply Z.ltb_ge; lia).
Qed.

Lemma send_frame_run (colors : list pixel) (self : BlinkyTape) :
  9 < ledCount self ->
  send_frame colors self =
  (Ok tt,
   if buffered self
   then called (with_buf self [])
               [Write (buf self ++ encode_all colors ++ control); Flush; FlushInput] []
   else called self
               (flat_map (fun '(r, g, b) => [Write (encode r g b); Flush]) colors
                ++ [Write control; Flush; FlushInput]) []).
Proof.
  intros Hn. unfold send_frame.
  erewrite bind_run by (apply send_pixels_run; exact Hn).
  rewrite show_run. destruct (buffered self) eqn:Hb; simpl; rewrite Hb.
  - unfold called, with_buf. simpl. now rewrite <- app_assoc.
  - unfold called. simpl. now rewrite <- app_assoc.
Qed.

Lemma wire_immediate (colors : list pixel) :
  wire (flat_map (fun '(r, g, b) => [Write (encode r g b); Flush]) colors) = encode_all colors.
Proof. induction colors as [|[[r g] b] colors IH]; simpl; [reflexivity|]. now rewrite IH. Qed.

Lemma writes_immediate (colors : list pixel) :
  writes (flat_map (fun '(r, g, b) => [Write (encode r g b); Flush]) colors)
  = map (fun '(r, g, b) => encode r g b) colors.
Proof. induction colors as [|[[r g] b] colors IH]; simpl; [reflexivity|]. now rewrite IH. Qed.

(** The frame round trip where the guard lets pixels through: from a
    fresh object with more than nine LEDs, [3N + 3] bytes ending in the
    show sentinel, in either mode. *)
Lemma send_frame_wire (n : Z) (mode : bool) (colors : list pixel) (input : list byte) :
  9 < n ->
  let '(result, self) := send_frame colors (init n mode input) in
  result = Ok tt /\
  wire (log (serial self)) = encode_all colors ++ control /\
  length (wire (log (serial self))) = (3 * length colors + 3)%nat.
Proof.
  intros Hn. rewrite send_frame_run by exact Hn.
  assert (Hlen : length (encode_all colors ++ control) = (3 * length colors + 3)%nat)
    by (rewrite length_app, length_encode_all; reflexivity).
  destruct mode; simpl; (split; [reflexivity|]).
  - rewrite app_nil_r. now split.
  - rewrite wire_app, wire_immediate. simpl. now split.
Qed.

(** ** Buffered against immediate mode *)

Section Simulation.
Variables sb si : BlinkyTape.
Hypothesis related : sim sb si.

Lemma sim_sendPixel (r g b : Z) :
  fst (sendPixel r g b sb) = fst (sendPixel r g b si) /\
  sim (snd (sendPixel r g b sb)) (snd (sendPixel r g b si)).
Proof.
  destruct related as (Hb & Hi & Hn & Hw).
  rewrite !sendPixel_run, Hb, Hi, <- Hn.
  destruct (9 <? ledCount sb); simpl; [|now repeat split].
  split; [reflexivity|]. repeat split; try assumption.
  simpl. rewrite wire_app, Hw. simpl. now rewrite <- app_assoc.
Qed.

Lemma sim_show :
  fst (show sb) = Ok tt /\ fst (show si) = Ok tt /\
  sim (snd (show sb)) (snd (show si)) /\ buf (snd (show sb)) = [].
Proof.
  destruct related as (Hb & Hi & Hn & Hw).
  rewrite !show_run, Hb, Hi. simpl. repeat split; try assumption.
  simpl. rewrite !wire_app, Hw. simpl. now rewrite !app_nil_r, <- app_assoc.
Qed.
End Simulation.

Lemma sim_send_pixels (colors : list pixel) (sb si : BlinkyTape) :
  sim sb si ->
  fst (send_pixels colors sb) = fst (send_pixels colors si) /\
  sim (snd (send_pixels colors sb)) (snd (send_pixels colors si)).
Proof.
  revert sb si. induction colors as [|[[r g] b] colors IH]; intros sb si Hsim.
  - now split.
  - destruct (sim_sendPixel sb si Hsim r g b) as [Hres Hnext].
    unfold send_pixels. simpl for_each. unfold bind.
    destruct (sendPixel r g b sb) as [[[]|e|] sb'], (sendPixel r g b si) as [[[]|e'|] si'];
      simpl in Hres, Hnext; try discriminate.
    + apply (IH sb' si' Hnext).
    + now split.
    + now split.
Qed.

Lemma sim_init (n : Z) (input : list byte) : sim (init n true input) (init n false input).
Proof. now repeat split. Qed.

Lemma sim_send_frame (colors : list pixel) (sb si : BlinkyTape) :
  sim sb si ->
  fst (send_frame colors sb) = fst (send_frame colors si) /\
  (fst (send_frame colors sb) = Ok tt ->
   wire (log (serial (snd (send_frame colors sb)))) =
   wire (log (serial (snd (send_frame colors si))))).
Proof.
  intros Hsim. destruct (sim_send_pixels colors sb si Hsim) as [Hres Hnext].
  unfold send_frame. unfold bind.
  destruct (send_pixels colors sb) as [[[]|e|] sb'], (send_pixels colors si) as [[[]|e'|] si'];
    simpl in Hres, Hnext; try discriminate.
  - destruct (sim_show sb' si' Hnext) as (Hb & Hi & (_ & _ & _ & Hw) & Hempty).
    split; [congruence|]. intros _. now rewrite Hw, Hempty, app_nil_r.
  - split; [simpl; congruence|]. discriminate.
  - split; [reflexivity|]. discriminate.
Qed.

(** ** The channel encoding *)

Lemma clamp_channel_clamped (v : Z) : channel_clamped v (ord (byte_of (clamp v))).
Proof.
  pose proof (clamp_range v) as Hr. rewrite ord_byte_of by lia.
  unfold channel_clamped, clamp in *. repeat case_match; lia.
Qed.

Lemma encode_range (r g b : Z) : Forall (fun c => 0 <= ord c <= 254) (encode r g b).
Proof.
  unfold encode. repeat constructor;
    match goal with |- context [clamp ?v] => apply (clamp_channel_clamped v) end.
Qed.

Lemma encode_all_range (colors : list pixel) :
  Forall (fun c => 0 <= ord c <= 254) (encode_all colors).
Proof.
  induction colors as [|[[r g] b] colors IH]; [constructor|].
  change (encode_all ((r, g, b) :: colors)) with (encode r g b ++ encode_all colors).
  apply Forall_app. split; [apply encode_range | exact IH].
Qed.

(** The guard of [sendPixel] looks at [ledCount] only. *)
Lemma sendPixel_refuses_iff (r g b : Z) (self : BlinkyTape) :
  fst (sendPixel r g b self) = Raise RuntimeError <-> ledCount self <= 9.
Proof.
  rewrite sendPixel_run. destruct (9 <? ledCount self) eqn:Hn.
  - apply Z.ltb_lt in Hn. simpl. split; [discriminate | lia].
  - apply Z.ltb_ge in Hn. simpl. now split.
Qed.

(** A refused pixel leaves the object and its port as they were. *)
Lemma sendPixel_refused_no_effect (r g b : Z) (self : BlinkyTape) (e : exn) :
  fst (sendPixel r g b self) = Raise e -> snd (sendPixel r g b self) = self.
Proof.
  rewrite sendPixel_run. destruct (9 <? ledCount self); [discriminate | reflexivity].
Qed.

(** ** [send_list] *)

(** [send_list] clamps at the top only: a negative channel reaches [chr]. *)
Lemma chr_clamped_above (v : Z) :
  chr (if 255 <=? v then 254 else v)
  = if v <? 0 then raise ValueError else ret (byte_of (clamp v)).
Proof.
  unfold clamp. destruct (v <? 0) eqn:Hneg.
  - replace (255 <=? v) with false by (symmetry; apply Z.leb_gt; lia).
    apply chr_out_of_range. lia.
  - destruct (255 <=? v) eqn:Hbig; apply chr_ok; lia.
Qed.

Lemma send_list_loop_run (colors : list pixel) (data : list byte) (self : BlinkyTape) :
  for_fold colors (fun data '(r, g, b) =>
    let r := if 255 <=? r then 254 else r in
    let g := if 255 <=? g then 254 else g in
    let b := if 255 <=? b then 254 else b in
    cr <- chr r ;; cg <- chr g ;; cb <- chr b ;;
    ret (data ++ [cr; cg; cb])) data self
  = if existsb has_negative colors
    then (Raise ValueError, self)
    else (Ok (data ++ encode_all colors), self).
Proof.
  revert data. induction colors as [|[[r g] b] colors IH]; intros data.
  - simpl. now rewrite app_nil_r.
  - simpl for_fold. cbv zeta. rewrite !chr_clamped_above.
    simpl existsb. unfold bind at 1.
    destruct (r <? 0); [reflexivity|]. destruct (g <? 0); [reflexivity|].
    destruct (b <? 0); [reflexivity|]. simpl. rewrite IH.
    change (encode_all ((r, g, b) :: colors)) with (encode r g b ++ encode_all colors).
    now rewrite <- app_assoc.
Qed.

Lemma send_list_run (colors : list pixel) (self : BlinkyTape) :
  send_list colors self =
  if existsb has_negative colors
  then (Raise ValueError, self)
  else show (called self [Write (encode_all colors)] (rx (serial self))).
Proof.
  unfold send_list. unfold bind at 1. rewrite send_list_loop_run.
  destruct (existsb has_negative colors); reflexivity.
Qed.

(** Whatever [send_list] and [sendPixel] do put on the wire as pixel data
    is in [0, 254]. *)
Lemma send_list_wire (colors : list pixel) (n : Z) (mode : bool) (input : list byte) :
  existsb has_negative colors = false ->
  send_list colors (init n mode input) =
  (Ok tt, called (init n mode input)
                 [Write (encode_all colors); Write control; Flush; FlushInput] []).
Proof.
  intros Hpos. rewrite send_list_run, Hpos, show_run. now destruct mode.
Qed.

(** From a fresh object [send_list] either writes nothing or writes the
    encoded frame and the show sentinel. *)
Lemma send_list_bytes (colors : list pixel) (n : Z) (mode : bool) (input : list byte) :
  let sent := wire (log (serial (snd (send_list colors (init n mode input))))) in
  (existsb has_negative colors = true /\ sent = []) \/
  (existsb has_negative colors = false /\ sent = encode_all colors ++ control /\
   Forall (fun c => 0 <= ord c <= 254) (encode_all colors)).
Proof.
  destruct (existsb has_negative colors) eqn:Hneg; [left | right].
  - now rewrite send_list_run, Hneg.
  - rewrite send_list_wire by exact Hneg. simpl. rewrite ?app_nil_r.
    repeat split. apply encode_all_range.
Qed.

Lemma for_each_constant {A} (l : list A) (r g b : Z) :
  for_each l (fun _ => sendPixel r g b)
  = send_pixels (replicate (length l) (r, g, b)).
Proof.
  unfold send_pixels. induction l as [|x l IH]; simpl; [reflexivity | now rewrite IH].
Qed.

(** [displayColor] is a frame of [ledCount] equal pixels. *)
Lemma displayColor_frame (r g b : Z) (self : BlinkyTape) :
  displayColor r g b self
  = send_frame (replicate (Z.to_nat (ledCount self)) (r, g, b)) self.
Proof.
  unfold displayColor, send_frame, range.
  unfold bind at 1. unfold gets.
  now rewrite for_each_constant, length_map, length_seq.
Qed.

(** ** Commands *)

Lemma escape_loop :
  for_fold (range 10) (fun s _ => c <- chr 255 ;; ret (s ++ [c])) [] = ret preamble.
Proof. reflexivity. Qed.

(** [sendCommand] step by step, by what the device has queued. *)
Lemma sendCommand_run (command : list byte) (self : BlinkyTape) :
  sendCommand command self =
  let sent := [Write preamble; Write command; Flush; Read 2%nat] in
  match rx (serial self) with
  | h0 :: h1 :: payload =>
      let size := Z.to_nat (ord h1 + 1) in
      if (size <=? length payload)%nat
      then (Ok (Byte.eqb h0 "P"%byte, take size payload),
            called self (sent ++ [Read size; FlushInput]) [])
      else (Blocked, called self (sent ++ [Read size]) payload)
  | input => (Blocked, called self sent input)
  end.
Proof.
  unfold sendCommand. rewrite escape_loop.
  destruct self as [n mode pending [l input]].
  unfold bind, ret, serial_write, serial_flush, serial_flushInput, serial_read,
    on_serial, called, index. simpl.
  destruct input as [|h0 [|h1 payload]]; simpl; rewrite <- ?app_assoc; try reflexivity.
  rewrite drop_0.
  destruct (Z.to_nat (ord h1 + 1) <=? length payload)%nat; simpl;
    rewrite <- ?app_assoc; reflexivity.
Qed.

(** Every call of [sendCommand] starts with the same four calls on the
    port and writes nothing afterwards. *)
Lemma sendCommand_log (command : list byte) (self : BlinkyTape) :
  exists later,
    log (serial (snd (sendCommand command self))) =
      log (serial self) ++ [Write preamble; Write command; Flush; Read 2%nat] ++ later /\
    writes later = [].
Proof.
  rewrite sendCommand_run. cbv zeta.
  destruct (rx (serial self)) as [|h0 [|h1 payload]].
  - exists []. now split.
  - exists []. now split.
  - destruct (Z.to_nat (ord h1 + 1) <=? length payload)%nat.
    + exists [Read (Z.to_nat (ord h1 + 1)); FlushInput]. now split.
    + exists [Read (Z.to_nat (ord h1 + 1))]. now split.
Qed.

Lemma bind_same_state {A B} (m : M A) (k : A -> M B) (self : BlinkyTape) :
  (forall a s, snd (k a s) = s) -> snd (bind m k self) = snd (m self).
Proof. intros Hk. unfold bind. destruct (m self) as [[a|e|] s]; [apply Hk | reflexivity..]. Qed.

(** * The properties of the specification *)

(** C1: the capacity of a frame.  The specification has [sendPixel] raise
    once more than [ledCount] pixels are sent before a show, and never
    earlier.  The guard compares a constant with [ledCount] instead: with
    60 LEDs the 61st pixel (and the 200th) is accepted and, in immediate
    mode, written; with 9 LEDs the very first pixel is refused. *)
Theorem sendPixel_capacity_not_counted :
  fst (send_pixels (replicate 61 (0, 0, 0)) (init 60 true [])) = Ok tt /\
  length (buf (snd (send_pixels (replicate 61 (0, 0, 0)) (init 60 true [])))) = 183%nat /\
  fst (send_pixels (replicate 200 (0, 0, 0)) (init 60 false [])) = Ok tt /\
  length (wire (log (serial (snd (send_pixels (replicate 200 (0, 0, 0)) (init 60 false []))))))
    = 600%nat /\
  sendPixel 0 0 0 (init 9 true []) = (Raise RuntimeError, init 9 true []) /\
  sendPixel 0 0 0 (init 9 false []) = (Raise RuntimeError, init 9 false []).
Proof. repeat split; vm_compute; reflexivity. Qed.

(** C2: the frame round trip.  The specification promises [3N + 3] bytes
    ending in (0, 0, 255) for every [N <= ledCount].  With [ledCount = 9]
    and one pixel the frame is refused and no byte reaches the wire, in
    either mode; [send_frame_wire] is the round trip for more than nine
    LEDs. *)
Theorem send_frame_refused_within_capacity :
  1 <= 9 /\
  send_frame [(0, 0, 0)] (init 9 true []) = (Raise RuntimeError, init 9 true []) /\
  send_frame [(0, 0, 0)] (init 9 false []) = (Raise RuntimeError, init 9 false []) /\
  wire (log (serial (snd (send_frame [(0, 0, 0)] (init 9 true []))))) = [].
Proof. repeat split; try lia; vm_compute; reflexivity. Qed.

(** C3: pixel bytes on the wire are in [0, 254], large values clamped to
    254 and negative ones to 0.  [sendPixel] does both; the [send_list]
    in effect clamps large values only, and a negative channel ends the
    call with the [ValueError] of [chr] before anything is written. *)
Theorem send_list_negative_channel :
  send_list [(-1, 0, 0)] (init 60 true []) = (Raise ValueError, init 60 true []) /\
  send_list [(-1, 0, 0)] (init 60 false []) = (Raise ValueError, init 60 false []) /\
  wire (log (serial (snd (send_list [(300, 0, 255)] (init 60 true []))))) =
    [byte_of 254; byte_of 0; byte_of 254] ++ control /\
  wire (log (serial (snd (send_frame [(-1, 0, 0)] (init 60 true []))))) =
    [byte_of 0; byte_of 0; byte_of 0] ++ control.
Proof. repeat split; vm_compute; reflexivity. Qed.

(** C4: buffered and immediate mode put the same bytes on the wire.  For
    a frame whose pixels are all accepted, the bytes written by the end of
    the show are the same in both modes; buffered mode sends them in one
    write, immediate mode in one write per pixel and one for the show. *)
Theorem buffered_immediate_same_wire (n : Z) (colors : list pixel) (input : list byte) :
  fst (send_frame colors (init n true input)) = Ok tt ->
  fst (send_frame colors (init n false input)) = Ok tt /\
  wire (log (serial (snd (send_frame colors (init n true input))))) =
  wire (log (serial (snd (send_frame colors (init n false input))))) /\
  length (writes (log (serial (snd (send_frame colors (init n true input)))))) = 1%nat /\
  length (writes (log (serial (snd (send_frame colors (init n false input))))))
    = S (length colors).
Proof.
  intros Hok.
  destruct (sim_send_frame colors _ _ (sim_init n input)) as [Hres Hwire].
  split; [congruence|]. split; [exact (Hwire Hok)|].
  assert (Hopen : colors = [] \/ 9 < n).
  { destruct colors as [|p colors]; [now left | right].
    destruct (Z.lt_ge_cases 9 n) as [Hn|Hn]; [exact Hn|].
    unfold send_frame in Hok.
    erewrite bind_raise in Hok by (apply send_pixels_refused; simpl; lia).
    discriminate. }
  destruct Hopen as [->|Hn].
  - unfold send_frame, send_pixels, bind. simpl for_each. unfold ret.
    rewrite !show_run. now split.
  - rewrite !send_frame_run by (simpl; lia). simpl.
    rewrite writes_app, writes_immediate, length_app, length_map. simpl.
    split; [reflexivity | apply Nat.add_1_r].
Qed.

Lemma buffered_immediate_same_wire_witness :
  fst (send_frame [(1, 2, 3); (300, -4, 255)] (init 60 false [])) = Ok tt /\
  wire (log (serial (snd (send_frame [(1, 2, 3); (300, -4, 255)] (init 60 true []))))) =
  wire (log (serial (snd (send_frame [(1, 2, 3); (300, -4, 255)] (init 60 false []))))) /\
  length (writes (log (serial (snd (send_frame [(1, 2, 3); (300, -4, 255)]
                                               (init 60 true [])))))) = 1%nat /\
  length (writes (log (serial (snd (send_frame [(1, 2, 3); (300, -4, 255)]
                                               (init 60 false [])))))) = 3%nat.
Proof.
  apply (buffered_immediate_same_wire 60 [(1, 2, 3); (300, -4, 255)] []).
  vm_compute. reflexivity.
Defined.

(** C6: the three bytes [sendPixel] makes of a pixel.  For channels in
    [-100, 400] each byte is in [0, 254]: 254 for a value of 255 or more,
    0 for a negative one, the value itself otherwise.  Where the guard
    lets the pixel through these are the bytes buffered or written, and
    the channel values never decide whether the call raises. *)
Theorem sendPixel_clamps (r g b : Z) (self : BlinkyTape) :
  -100 <= r <= 400 -> -100 <= g <= 400 -> -100 <= b <= 400 ->
  exists cr cg cb,
    channel_clamped r (ord cr) /\ channel_clamped g (ord cg) /\
    channel_clamped b (ord cb) /\
    (9 < ledCount self ->
     sendPixel r g b self =
     (Ok tt, if buffered self
             then with_buf self (buf self ++ [cr; cg; cb])
             else called self [Write [cr; cg; cb]; Flush] (rx (serial self)))) /\
    fst (sendPixel r g b self) <> Raise ValueError /\
    fst (sendPixel r g b self) = fst (sendPixel 0 0 0 self).
Proof.
  intros _ _ _.
  exists (byte_of (clamp r)), (byte_of (clamp g)), (byte_of (clamp b)).
  repeat split; try apply clamp_channel_clamped.
  - intros Hn. rewrite sendPixel_run.
    now replace (9 <? ledCount self) with true by (symmetry; apply Z.ltb_lt; lia).
  - rewrite sendPixel_run. destruct (9 <? ledCount self); discriminate.
  - rewrite !sendPixel_run. now destruct (9 <? ledCount self).
Qed.

Lemma sendPixel_clamps_witness :
  exists cr cg cb,
    channel_clamped 300 (ord cr) /\ channel_clamped (-5) (ord cg) /\
    channel_clamped 7 (ord cb) /\
    (9 < ledCount (init 60 true []) ->
     sendPixel 300 (-5) 7 (init 60 true []) =
     (Ok tt, if buffered (init 60 true [])
             then with_buf (init 60 true []) (buf (init 60 true []) ++ [cr; cg; cb])
             else called (init 60 true []) [Write [cr; cg; cb]; Flush]
                         (rx (serial (init 60 true []))))) /\
    fst (sendPixel 300 (-5) 7 (init 60 true [])) <> Raise ValueError /\
    fst (sendPixel 300 (-5) 7 (init 60 true [])) = fst (sendPixel 0 0 0 (init 60 true [])).
Proof. apply (sendPixel_clamps 300 (-5) 7 (init 60 true [])); lia. Defined.

(** C8: the framing of a command.  Whatever the payload, [sendCommand]
    first writes ten bytes of value 255, then the payload, flushes, and
    only then reads; nothing else is written.  For the one-byte payload
    [0x02], which is what [reloadAnimations] sends, the wire carries the
    ten bytes and then [0x02]. *)
Theorem sendCommand_framing (command : list byte) (self : BlinkyTape) :
  (exists later,
     log (serial (snd (sendCommand command self))) =
       log (serial self)
       ++ [Write (replicate 10 xff); Write command; Flush; Read 2%nat] ++ later /\
     writes later = []) /\
  wire (log (serial (snd (sendCommand command self)))) =
    wire (log (serial self)) ++ replicate 10 xff ++ command /\
  ord xff = 255 /\
  wire (log (serial (snd (sendCommand [x02] (init (ledCount self) (buffered self)
                                                  (rx (serial self)))))))
    = replicate 10 xff ++ [x02] /\
  wire (log (serial (snd (reloadAnimations (init (ledCount self) (buffered self)
                                                 (rx (serial self)))))))
    = replicate 10 xff ++ [x02].
Proof.
  assert (Hwire : forall c s,
    wire (log (serial (snd (sendCommand c s)))) = wire (log (serial s)) ++ preamble ++ c).
  { intros c s. destruct (sendCommand_log c s) as (later & Hlog & Hnone).
    rewrite Hlog, !wire_app, (wire_concat_writes later), Hnone. simpl.
    now rewrite !app_nil_r. }
  split; [apply sendCommand_log|]. split; [apply Hwire|]. split; [reflexivity|].
  split; [now rewrite Hwire|].
  unfold reloadAnimations. rewrite chr_ok by lia. rewrite bind_ret.
  rewrite bind_same_state by reflexivity. now rewrite Hwire.
Qed.

(** C5: the decoding of a response.  With a two-byte header and at least
    as many payload bytes as the header announces, [sendCommand] returns
    a status that is true exactly when the first byte is 'P' (code 80)
    and, as data, the next (second byte + 1) bytes.  On the response
    'P', 3, 1, 2, 3, 4 [getFreeSpace] returns [0x01020304]; when the
    status is false it returns 0. *)
Theorem sendCommand_response (command : list byte) (self : BlinkyTape)
    (h0 h1 : byte) (payload : list byte) :
  rx (serial self) = h0 :: h1 :: payload ->
  ord h1 + 1 <= Z.of_nat (length payload) ->
  (exists status data,
     fst (sendCommand command self) = Ok (status, data) /\
     (status = true <-> ord h0 = 80) /\
     data = take (Z.to_nat (ord h1 + 1)) payload /\
     Z.of_nat (length data) = ord h1 + 1) /\
  (ord h0 <> 80 -> fst (getFreeSpace self) = Ok 0) /\
  fst (getFreeSpace (init (ledCount self) (buffered self)
                          ["P"%byte; x03; x01; x02; x03; x04])) = Ok 0x01020304.
Proof.
  intros Hrx Hlen.
  assert (Hsize : (Z.to_nat (ord h1 + 1) <=? length payload)%nat = true)
    by (apply Nat.leb_le; lia).
  assert (Hstatus : Byte.eqb h0 "P"%byte = true <-> ord h0 = 80).
  { change 80 with (ord "P"%byte). split; intros H.
    - apply Byte.byte_dec_bl in H. now subst.
    - apply Byte.byte_dec_lb, ord_inj, H. }
  split; [|split].
  - exists (Byte.eqb h0 "P"%byte), (take (Z.to_nat (ord h1 + 1)) payload).
    rewrite sendCommand_run, Hrx. cbv zeta. rewrite Hsize.
    repeat split; try apply Hstatus.
    pose proof (ord_range h1). rewrite length_take. lia.
  - intros Hfail. unfold getFreeSpace. rewrite chr_ok by lia.
    unfold bind at 1. unfold ret at 1. unfold bind at 1.
    rewrite sendCommand_run, Hrx. cbv zeta. rewrite Hsize.
    destruct (Byte.eqb h0 "P"%byte); [|reflexivity].
    exfalso. apply Hfail, Hstatus. reflexivity.
  - reflexivity.
Qed.

Lemma sendCommand_response_witness :
  ((exists status data,
      fst (sendCommand [x10] (init 60 true ["P"%byte; x03; x01; x02; x03; x04]))
        = Ok (status, data) /\
      (status = true <-> ord "P"%byte = 80) /\
      data = take (Z.to_nat (ord x03 + 1)) [x01; x02; x03; x04] /\
      Z.of_nat (length data) = ord x03 + 1) /\
   (ord "P"%byte <> 80 ->
    fst (getFreeSpace (init 60 true ["P"%byte; x03; x01; x02; x03; x04])) = Ok 0) /\
   fst (getFreeSpace (init 60 true ["P"%byte; x03; x01; x02; x03; x04])) = Ok 0x01020304) /\
  fst (getFreeSpace (init 60 true ["F"%byte; x03; x01; x02; x03; x04])) = Ok 0.
Proof.
  split.
  - apply (sendCommand_response [x10] (init 60 true ["P"%byte; x03; x01; x02; x03; x04])
                                "P"%byte x03 [x01; x02; x03; x04]).
    + reflexivity.
    + vm_compute. discriminate.
  - apply (sendCommand_response [x10] (init 60 true ["F"%byte; x03; x01; x02; x03; x04])
                                "F"%byte x03 [x01; x02; x03; x04]).
    + reflexivity.
    + vm_compute. discriminate.
    + vm_compute. discriminate.
Defined.

Lemma ord_low_byte (n : Z) : ord (byte_of (Z.land n 0xFF)) = n mod 256.
Proof. rewrite ord_byte_of by apply low_byte_range. apply low_byte_mod. Qed.

Lemma ord_shifted_byte (n k : Z) :
  0 <= k -> ord (byte_of (Z.land (Z.shiftr n k) 0xFF)) = n / 2 ^ k mod 256.
Proof. intros Hk. rewrite ord_byte_of by apply low_byte_range. now apply shifted_byte. Qed.

Ltac build_command :=
  repeat (rewrite chr_ok by (first [apply low_byte_range | lia]));
  repeat (rewrite bind_ret; cbv beta zeta).

Ltac field_bytes :=
  simpl map; rewrite ?map_app, ?ord_shifted_byte, ?ord_low_byte by lia;
  rewrite ?ord_byte_of by lia.

(** C7: the page size of [writeFilePage].  With data of any length but
    256 the call returns [False] and leaves the port untouched; with 256
    bytes it sends one command: opcode [0x19], the sector and the offset
    as four bytes each, most significant first, then the data. *)
Theorem writeFilePage_page (sector offset : Z) (data : list byte) (self : BlinkyTape) :
  (length data <> 256%nat -> writeFilePage sector offset data self = (Ok false, self)) /\
  (length data = 256%nat ->
   exists command later,
     log (serial (snd (writeFilePage sector offset data self))) =
       log (serial self)
       ++ [Write (replicate 10 xff); Write command; Flush; Read 2%nat] ++ later /\
     writes later = [] /\
     map ord command = 0x19 :: be32 sector ++ be32 offset ++ map ord data).
Proof.
  split; intros Hlen; unfold writeFilePage.
  - apply Nat.eqb_neq in Hlen. now rewrite Hlen.
  - apply Nat.eqb_eq in Hlen. rewrite Hlen. cbn [negb]. cbv zeta.
    build_command.
    match goal with |- context [sendCommand ?c] =>
      destruct (sendCommand_log c self) as (later & Hlog & Hnone); exists c, later
    end.
    rewrite bind_same_state by (now intros [status returnData] s).
    split; [exact Hlog|]. split; [exact Hnone|].
    unfold be32. simpl app. now field_bytes.
Qed.

Lemma writeFilePage_page_witness :
  writeFilePage 1 2 (replicate 255 x00) (init 60 true []) = (Ok false, init 60 true []) /\
  exists command later,
    log (serial (snd (writeFilePage 0x01020304 0x0A0B0C0D (replicate 256 x07)
                                    (init 60 true [])))) =
      log (serial (init 60 true []))
      ++ [Write (replicate 10 xff); Write command; Flush; Read 2%nat] ++ later /\
    writes later = [] /\
    map ord command =
      0x19 :: be32 0x01020304 ++ be32 0x0A0B0C0D ++ map ord (replicate 256 x07).
Proof.
  split.
  - apply (proj1 (writeFilePage_page 1 2 (replicate 255 x00) (init 60 true []))).
    vm_compute. discriminate.
  - apply (proj2 (writeFilePage_page 0x01020304 0x0A0B0C0D (replicate 256 x07)
                                     (init 60 true []))).
    vm_compute. reflexivity.
Defined.

(** C9: the request of [readFileData].  For a length from 0 to 256 the
    command is opcode [0x1A], the sector and the offset as four bytes
    each, most significant first, and one last byte (length - 1) mod 256;
    a length of 0 gives 255 there. *)
Theorem readFileData_request (sector offset len : Z) (self : BlinkyTape) :
  0 <= len <= 256 ->
  exists command later,
    log (serial (snd (readFileData sector offset len self))) =
      log (serial self)
      ++ [Write (replicate 10 xff); Write command; Flush; Read 2%nat] ++ later /\
    writes later = [] /\
    map ord command = 0x1A :: be32 sector ++ be32 offset ++ [(len - 1) mod 256] /\
    (len = 0 -> map ord command = 0x1A :: be32 sector ++ be32 offset ++ [255]).
Proof.
  intros Hlen. unfold readFileData.
  replace (256 <? len) with false by (symmetry; apply Z.ltb_ge; lia).
  cbv zeta. build_command.
  match goal with |- context [sendCommand ?c] =>
    destruct (sendCommand_log c self) as (later & Hlog & Hnone); exists c, later
  end.
  rewrite bind_same_state by (now intros [status returnData] s).
  split; [exact Hlog|]. split; [exact Hnone|].
  unfold be32. simpl app. field_bytes. split; [reflexivity|]. now intros ->.
Qed.

Lemma readFileData_request_witness :
  exists command later,
    log (serial (snd (readFileData 0x01020304 7 0 (init 60 true [])))) =
      log (serial (init 60 true []))
      ++ [Write (replicate 10 xff); Write command; Flush; Read 2%nat] ++ later /\
    writes later = [] /\
    map ord command = 0x1A :: be32 0x01020304 ++ be32 7 ++ [(0 - 1) mod 256] /\
    (0 = 0 -> map ord command = 0x1A :: be32 0x01020304 ++ be32 7 ++ [255]).
Proof. apply (readFileData_request 0x01020304 7 0 (init 60 true [])). lia. Defined.

(** C10: the guard of [readFileData].  For a length above 256 the call
    touches nothing and returns the bare [False], which is no
    [(status, data)] tuple; every call that gets past the guard and
    returns, returns such a tuple. *)
Theorem readFileData_guard (sector offset len : Z) (self : BlinkyTape) :
  256 < len ->
  readFileData sector offset len self = (Ok PyFalse, self) /\
  (forall status data, PyFalse <> PyTuple status data) /\
  (forall len' self' result,
     len' <= 256 ->
     fst (readFileData sector offset len' self') = Ok result ->
     exists status data, result = PyTuple status data).
Proof.
  intros Hlen. split; [|split].
  - unfold readFileData.
    now replace (256 <? len) with true by (symmetry; apply Z.ltb_lt; lia).
  - discriminate.
  - intros len' self' result Hlen'. unfold readFileData.
    replace (256 <? len') with false by (symmetry; apply Z.ltb_ge; lia).
    cbv zeta. build_command. unfold bind.
    match goal with |- context [sendCommand ?c ?s] =>
      destruct (sendCommand c s) as [[[status data]|e|] s']
    end; simpl; intros H; try discriminate.
    exists status, data. congruence.
Qed.

Lemma readFileData_guard_witness :
  readFileData 3 0 257 (init 60 true []) = (Ok PyFalse, init 60 true []) /\
  (forall status data, PyFalse <> PyTuple status data) /\
  (forall len' self' result,
     len' <= 256 ->
     fst (readFileData 3 0 len' self') = Ok result ->
     exists status data, result = PyTuple status data).
Proof. apply (readFileData_guard 3 0 257 (init 60 true [])). lia. Defined.

(** * Further properties of the pixel stream *)

Lemma ltb_9_true (n : Z) : 9 < n -> (9 <? n) = true.
Proof. intros H. now apply Z.ltb_lt. Qed.

Lemma ltb_9_false (n : Z) : n <= 9 -> (9 <? n) = false.
Proof. intros H. now apply Z.ltb_ge. Qed.

Lemma send_frame_refused (p : pixel) (colors : list pixel) (self : BlinkyTape) :
  ledCount self <= 9 -> send_frame (p :: colors) self = (Raise RuntimeError, self).
Proof.
  intros Hn. unfold send_frame. apply bind_raise. now apply send_pixels_refused.
Qed.

Lemma encode_all_replicate (k : nat) (r g b : Z) :
  encode_all (replicate k (r, g, b)) = concat (replicate k (encode r g b)).
Proof. induction k as [|k IH]; [reflexivity|]. simpl. now rewrite <- IH. Qed.

Lemma encode_all_app (xs ys : list pixel) :
  encode_all (xs ++ ys) = encode_all xs ++ encode_all ys.
Proof. unfold encode_all. apply flat_map_app. Qed.

(** X1: the guard of [sendPixel] is the same for every pixel of every
    frame.  With nine LEDs or fewer each call raises and changes nothing;
    with more than nine each call is accepted; what is pending in [buf]
    and what went through the port play no part. *)
Theorem sendPixel_guard_ignores_frame (r g b : Z) (self : BlinkyTape) :
  (ledCount self <= 9 -> sendPixel r g b self = (Raise RuntimeError, self)) /\
  (9 < ledCount self -> fst (sendPixel r g b self) = Ok tt) /\
  (forall pending port,
     fst (sendPixel r g b (mkBlinkyTape (ledCount self) (buffered self) pending port))
     = fst (sendPixel r g b self)).
Proof.
  split; [|split].
  - intros Hn. now rewrite sendPixel_run, ltb_9_false.
  - intros Hn. now rewrite sendPixel_run, ltb_9_true.
  - intros pending port. rewrite !sendPixel_run. simpl.
    now destruct (9 <? ledCount self).
Qed.

Lemma sendPixel_guard_ignores_frame_witness :
  sendPixel 1 2 3 (init 9 false []) = (Raise RuntimeError, init 9 false []) /\
  fst (sendPixel 1 2 3 (init 10 false [])) = Ok tt.
Proof.
  split.
  - apply (proj1 (sendPixel_guard_ignores_frame 1 2 3 (init 9 false []))).
    simpl. lia.
  - apply (proj1 (proj2 (sendPixel_guard_ignores_frame 1 2 3 (init 10 false [])))).
    simpl. lia.
Defined.

(** X2: in buffered mode pixels never reach the port before a show.
    Whatever is sent, the port is left exactly as it was; with more than
    nine LEDs [buf] grows by the three bytes of each pixel. *)
Theorem buffered_pixels_wait_for_show (colors : list pixel) (self : BlinkyTape) :
  buffered self = true ->
  serial (snd (send_pixels colors self)) = serial self /\
  (9 < ledCount self ->
   buf (snd (send_pixels colors self)) = buf self ++ encode_all colors /\
   length (buf (snd (send_pixels colors self)))
     = (length (buf self) + 3 * length colors)%nat).
Proof.
  intros Hb. split.
  - destruct (Z.lt_ge_cases 9 (ledCount self)) as [Hn|Hn].
    + now rewrite send_pixels_run, Hb by exact Hn.
    + destruct colors as [|p colors]; [reflexivity|].
      now rewrite send_pixels_refused by lia.
  - intros Hn. rewrite send_pixels_run, Hb by exact Hn. simpl.
    split; [reflexivity|]. now rewrite length_app, length_encode_all.
Qed.

Lemma buffered_pixels_wait_for_show_witness :
  serial (snd (send_pixels [(1, 2, 3); (4, 5, 6)] (init 60 true [x07]))) =
    serial (init 60 true [x07]) /\
  (9 < ledCount (init 60 true [x07]) ->
   buf (snd (send_pixels [(1, 2, 3); (4, 5, 6)] (init 60 true [x07])))
     = buf (init 60 true [x07]) ++ encode_all [(1, 2, 3); (4, 5, 6)] /\
   length (buf (snd (send_pixels [(1, 2, 3); (4, 5, 6)] (init 60 true [x07]))))
     = (length (buf (init 60 true [x07])) + 3 * length [(1, 2, 3); (4, 5, 6)])%nat).
Proof.
  apply (buffered_pixels_wait_for_show [(1, 2, 3); (4, 5, 6)] (init 60 true [x07])).
  reflexivity.
Defined.

(** X3: in immediate mode each accepted pixel is one write of its three
    bytes followed by a flush, and [buf] is not touched. *)
Theorem immediate_pixels_written_at_once (colors : list pixel) (self : BlinkyTape) :
  buffered self = false -> 9 < ledCount self ->
  buf (snd (send_pixels colors self)) = buf self /\
  log (serial (snd (send_pixels colors self))) =
    log (serial self) ++ flat_map (fun '(r, g, b) => [Write (encode r g b); Flush]) colors /\
  writes (log (serial (snd (send_pixels colors self)))) =
    writes (log (serial self)) ++ map (fun '(r, g, b) => encode r g b) colors /\
  rx (serial (snd (send_pixels colors self))) = rx (serial self).
Proof.
  intros Hb Hn. rewrite send_pixels_run, Hb by exact Hn. simpl.
  repeat split. now rewrite writes_app, writes_immediate.
Qed.

Lemma immediate_pixels_written_at_once_witness :
  buf (snd (send_pixels [(1, 2, 3); (4, 5, 6)] (init 60 false [x07]))) =
    buf (init 60 false [x07]) /\
  log (serial (snd (send_pixels [(1, 2, 3); (4, 5, 6)] (init 60 false [x07])))) =
    log (serial (init 60 false [x07]))
    ++ flat_map (fun '(r, g, b) => [Write (encode r g b); Flush]) [(1, 2, 3); (4, 5, 6)] /\
  writes (log (serial (snd (send_pixels [(1, 2, 3); (4, 5, 6)] (init 60 false [x07])))))
    = writes (log (serial (init 60 false [x07])))
      ++ map (fun '(r, g, b) => encode r g b) [(1, 2, 3); (4, 5, 6)] /\
  rx (serial (snd (send_pixels [(1, 2, 3); (4, 5, 6)] (init 60 false [x07])))) =
    rx (serial (init 60 false [x07])).
Proof.
  apply (immediate_pixels_written_at_once [(1, 2, 3); (4, 5, 6)] (init 60 false [x07])).
  - reflexivity.
  - simpl. lia.
Defined.

(** X4: a frame from any state.  With more than nine LEDs a frame of any
    number of pixels, also more than [ledCount], is accepted: the wire
    gets what was pending in [buf], the pixels and the show sentinel;
    afterwards a buffered object holds nothing and the input is drained. *)
Theorem send_frame_from_any_state (colors : list pixel) (self : BlinkyTape) :
  9 < ledCount self ->
  fst (send_frame colors self) = Ok tt /\
  wire (log (serial (snd (send_frame colors self)))) =
    wire (log (serial self))
    ++ (if buffered self then buf self else []) ++ encode_all colors ++ control /\
  buf (snd (send_frame colors self)) = (if buffered self then [] else buf self) /\
  rx (serial (snd (send_frame colors self))) = [].
Proof.
  intros Hn. rewrite send_frame_run by exact Hn.
  destruct (buffered self); simpl; repeat split.
  - rewrite wire_app. simpl. now rewrite app_nil_r.
  - now rewrite !wire_app, wire_immediate.
Qed.

Lemma send_frame_from_any_state_witness :
  fst (send_frame (replicate 11 (9, 9, 9)) (init 10 true [])) = Ok tt /\
  wire (log (serial (snd (send_frame (replicate 11 (9, 9, 9)) (init 10 true []))))) =
    wire (log (serial (init 10 true [])))
    ++ (if buffered (init 10 true []) then buf (init 10 true []) else [])
    ++ encode_all (replicate 11 (9, 9, 9)) ++ control /\
  buf (snd (send_frame (replicate 11 (9, 9, 9)) (init 10 true []))) =
    (if buffered (init 10 true []) then [] else buf (init 10 true [])) /\
  rx (serial (snd (send_frame (replicate 11 (9, 9, 9)) (init 10 true [])))) = [].
Proof.
  apply (send_frame_from_any_state (replicate 11 (9, 9, 9)) (init 10 true [])).
  simpl. lia.
Defined.

(** X5: [show] never fails.  It empties [buf] in buffered mode, drains the
    input, and a second show right after it sends the sentinel alone. *)
Theorem show_resets (self : BlinkyTape) :
  fst (show self) = Ok tt /\
  buf (snd (show self)) = (if buffered self then [] else buf self) /\
  rx (serial (snd (show self))) = [] /\
  wire (log (serial (snd (show self)))) =
    wire (log (serial self)) ++ (if buffered self then buf self else []) ++ control /\
  wire (log (serial (snd (show (snd (show self)))))) =
    wire (log (serial (snd (show self)))) ++ control.
Proof.
  rewrite !show_run. destruct (buffered self) eqn:Hb; simpl; rewrite ?Hb; simpl;
    rewrite !wire_app; simpl; rewrite ?app_nil_r; repeat split.
Qed.

Lemma control_split : control = [x00; x00] ++ [xff].
Proof. reflexivity. Qed.

Lemma below_255 (l : list byte) :
  Forall (fun c => 0 <= ord c <= 254) l -> Forall (fun c => ord c <= 254) l.
Proof.
  intros H. eapply Forall_impl; [exact H|]. intros c Hc. simpl in Hc. lia.
Qed.

(** X6: the show sentinel cannot be mistaken.  In what a frame sent with
    [send_frame], or a list of non-negative colors sent with [send_list],
    puts on the wire from a fresh object, the only byte of value 255 is
    the last one. *)
Theorem sentinel_is_the_only_255 (n : Z) (mode : bool) (colors : list pixel)
    (input : list byte) :
  (9 < n ->
   exists body,
     wire (log (serial (snd (send_frame colors (init n mode input))))) = body ++ [xff] /\
     Forall (fun c => ord c <= 254) body) /\
  (existsb has_negative colors = false ->
   exists body,
     wire (log (serial (snd (send_list colors (init n mode input))))) = body ++ [xff] /\
     Forall (fun c => ord c <= 254) body).
Proof.
  assert (Hbody : Forall (fun c => ord c <= 254) (encode_all colors ++ [x00; x00])).
  { apply Forall_app. split; [apply below_255, encode_all_range|].
    repeat constructor; vm_compute; discriminate. }
  split.
  - intros Hn. pose proof (send_frame_wire n mode colors input Hn) as H.
    destruct (send_frame colors (init n mode input)) as [result self].
    destruct H as (_ & Hw & _). exists (encode_all colors ++ [x00; x00]).
    split; [|exact Hbody]. simpl. now rewrite Hw, control_split, app_assoc.
  - intros Hpos. exists (encode_all colors ++ [x00; x00]). split; [|exact Hbody].
    rewrite send_list_wire by exact Hpos. rewrite <- app_assoc. reflexivity.
Qed.

Lemma sentinel_is_the_only_255_witness :
  (exists body,
     wire (log (serial (snd (send_frame [(255, 300, -1)] (init 60 true [])))))
       = body ++ [xff] /\
     Forall (fun c => ord c <= 254) body) /\
  (exists body,
     wire (log (serial (snd (send_list [(255, 300, 0)] (init 60 false [])))))
       = body ++ [xff] /\
     Forall (fun c => ord c <= 254) body).
Proof.
  split.
  - apply (proj1 (sentinel_is_the_only_255 60 true [(255, 300, -1)] [])). lia.
  - apply (proj2 (sentinel_is_the_only_255 60 false [(255, 300, 0)] [])). reflexivity.
Defined.

Lemma send_frame_next (colors : list pixel) (self : BlinkyTape) :
  9 < ledCount self ->
  exists next,
    send_frame colors self = (Ok tt, next) /\
    ledCount next = ledCount self /\ buffered next = buffered self /\
    buf next = (if buffered self then [] else buf self) /\
    wire (log (serial next)) =
      wire (log (serial self))
      ++ (if buffered self then buf self else []) ++ encode_all colors ++ control.
Proof.
  intros Hn. rewrite send_frame_run by exact Hn. eexists. split; [reflexivity|].
  destruct (buffered self) eqn:Hmode; simpl; repeat split; try assumption.
  - rewrite wire_app. simpl. now rewrite app_nil_r.
  - now rewrite !wire_app, wire_immediate.
Qed.

Lemma frames_run (frames : list (list pixel)) (self : BlinkyTape) :
  9 < ledCount self -> buf self = [] ->
  exists final,
    for_each frames send_frame self = (Ok tt, final) /\
    buf final = [] /\
    wire (log (serial final)) =
      wire (log (serial self)) ++ flat_map (fun f => encode_all f ++ control) frames.
Proof.
  revert self. induction frames as [|f frames IH]; intros self Hn Hempty.
  - exists self. simpl. now rewrite app_nil_r.
  - destruct (send_frame_next f self Hn) as (next & Hrun & Hled & Hmode & Hbuf & Hw).
    assert (Hnext : buf next = []) by (rewrite Hbuf; now destruct (buffered self)).
    destruct (IH next ltac:(lia) Hnext) as (final & Hrest & Hfinal & Hwire).
    exists final. simpl for_each. rewrite (bind_run _ _ _ _ _ Hrun).
    split; [exact Hrest|]. split; [exact Hfinal|].
    rewrite Hwire, Hw, Hempty. simpl flat_map.
    destruct (buffered self); simpl; now rewrite <- !app_assoc.
Qed.

(** X7: frames in sequence.  From a fresh object with more than nine
    LEDs, any number of frames sent one after the other arrive as the
    pixels of each frame followed by its sentinel, in order and in either
    mode; nothing is left pending. *)
Theorem frames_in_sequence (n : Z) (mode : bool) (frames : list (list pixel))
    (input : list byte) :
  9 < n ->
  fst (for_each frames send_frame (init n mode input)) = Ok tt /\
  wire (log (serial (snd (for_each frames send_frame (init n mode input))))) =
    flat_map (fun f => encode_all f ++ control) frames /\
  buf (snd (for_each frames send_frame (init n mode input))) = [].
Proof.
  intros Hn.
  destruct (frames_run frames (init n mode input) Hn eq_refl) as (final & Hrun & Hb & Hw).
  rewrite Hrun. simpl. now rewrite Hw.
Qed.

Lemma frames_in_sequence_witness :
  fst (for_each [[(1, 2, 3)]; []; [(4, 5, 6); (7, 8, 9)]] send_frame (init 60 false []))
    = Ok tt /\
  wire (log (serial (snd (for_each [[(1, 2, 3)]; []; [(4, 5, 6); (7, 8, 9)]] send_frame
                                   (init 60 false [])))))
    = flat_map (fun f => encode_all f ++ control) [[(1, 2, 3)]; []; [(4, 5, 6); (7, 8, 9)]] /\
  buf (snd (for_each [[(1, 2, 3)]; []; [(4, 5, 6); (7, 8, 9)]] send_frame
                     (init 60 false []))) = [].
Proof.
  apply (frames_in_sequence 60 false [[(1, 2, 3)]; []; [(4, 5, 6); (7, 8, 9)]] []). lia.
Defined.

(** X8: [send_list] has no capacity check and overtakes pending pixels.
    For colors without a negative channel it succeeds whatever [ledCount]
    and the length of the list are; its data is written first, and what
    was pending in [buf] follows it, just before the sentinel. *)
Theorem send_list_unchecked (colors : list pixel) (self : BlinkyTape) :
  existsb has_negative colors = false ->
  fst (send_list colors self) = Ok tt /\
  wire (log (serial (snd (send_list colors self)))) =
    wire (log (serial self)) ++ encode_all colors
    ++ (if buffered self then buf self else []) ++ control /\
  buf (snd (send_list colors self)) = (if buffered self then [] else buf self) /\
  ledCount (snd (send_list colors self)) = ledCount self.
Proof.
  intros Hpos. rewrite send_list_run, Hpos, show_run.
  destruct (buffered self) eqn:Hmode; simpl; rewrite ?Hmode; simpl;
    rewrite !wire_app; simpl; rewrite ?app_nil_r, <- ?app_assoc; repeat split.
Qed.

Lemma send_list_unchecked_witness :
  fst (send_list [(1, 2, 3); (4, 5, 6); (7, 8, 9)]
                 (mkBlinkyTape 2 true [x0a; x0b; x0c] (mkSerial [] []))) = Ok tt /\
  wire (log (serial (snd (send_list [(1, 2, 3); (4, 5, 6); (7, 8, 9)]
                                    (mkBlinkyTape 2 true [x0a; x0b; x0c] (mkSerial [] []))))))
    = wire (log (serial (mkBlinkyTape 2 true [x0a; x0b; x0c] (mkSerial [] []))))
      ++ encode_all [(1, 2, 3); (4, 5, 6); (7, 8, 9)]
      ++ (if buffered (mkBlinkyTape 2 true [x0a; x0b; x0c] (mkSerial [] []))
          then buf (mkBlinkyTape 2 true [x0a; x0b; x0c] (mkSerial [] []))
          else [])
      ++ control /\
  buf (snd (send_list [(1, 2, 3); (4, 5, 6); (7, 8, 9)]
                      (mkBlinkyTape 2 true [x0a; x0b; x0c] (mkSerial [] []))))
    = (if buffered (mkBlinkyTape 2 true [x0a; x0b; x0c] (mkSerial [] []))
       then [] else buf (mkBlinkyTape 2 true [x0a; x0b; x0c] (mkSerial [] []))) /\
  ledCount (snd (send_list [(1, 2, 3); (4, 5, 6); (7, 8, 9)]
                           (mkBlinkyTape 2 true [x0a; x0b; x0c] (mkSerial [] []))))
    = ledCount (mkBlinkyTape 2 true [x0a; x0b; x0c] (mkSerial [] [])).
Proof.
  apply (send_list_unchecked [(1, 2, 3); (4, 5, 6); (7, 8, 9)]
                             (mkBlinkyTape 2 true [x0a; x0b; x0c] (mkSerial [] []))).
  reflexivity.
Defined.



(** X10: on a fresh object with more than nine LEDs, [send_list] and a
    frame sent pixel by pixel put the same bytes on the wire, for colors
    without a negative channel. *)
Theorem send_list_agrees_with_send_frame (n : Z) (mode : bool) (colors : list pixel)
    (input : list byte) :
  9 < n -> existsb has_negative colors = false ->
  fst (send_list colors (init n mode input)) = fst (send_frame colors (init n mode input)) /\
  wire (log (serial (snd (send_list colors (init n mode input))))) =
  wire (log (serial (snd (send_frame colors (init n mode input))))).
Proof.
  intros Hn Hpos.
  pose proof (send_frame_wire n mode colors input Hn) as Hframe.
  destruct (send_frame colors (init n mode input)) as [result self].
  destruct Hframe as (-> & Hw & _). simpl in Hw |- *. rewrite Hw.
  rewrite send_list_wire by exact Hpos. split; [reflexivity|].
  reflexivity.
Qed.

Lemma send_list_agrees_with_send_frame_witness :
  fst (send_list [(1, 2, 3); (300, 0, 255)] (init 60 false []))
    = fst (send_frame [(1, 2, 3); (300, 0, 255)] (init 60 false [])) /\
  wire (log (serial (snd (send_list [(1, 2, 3); (300, 0, 255)] (init 60 false []))))) =
  wire (log (serial (snd (send_frame [(1, 2, 3); (300, 0, 255)] (init 60 false []))))).
Proof.
  apply (send_list_agrees_with_send_frame 60 false [(1, 2, 3); (300, 0, 255)] []).
  - lia.
  - reflexivity.
Defined.

(** X11: [displayColor] on a strip of more than nine LEDs sends the
    clamped color once per LED and the sentinel: [3 * ledCount + 3]
    bytes. *)
Theorem displayColor_fills_strip (r g b n : Z) (mode : bool) (input : list byte) :
  9 < n ->
  fst (displayColor r g b (init n mode input)) = Ok tt /\
  wire (log (serial (snd (displayColor r g b (init n mode input))))) =
    concat (replicate (Z.to_nat n) (encode r g b)) ++ control /\
  Z.of_nat (length (wire (log (serial (snd (displayColor r g b (init n mode input)))))))
    = 3 * n + 3.
Proof.
  intros Hn. rewrite displayColor_frame. simpl ledCount.
  pose proof (send_frame_wire n mode (replicate (Z.to_nat n) (r, g, b)) input Hn) as H.
  destruct (send_frame _ _) as [result self]. destruct H as (-> & Hw & Hlen).
  simpl. rewrite Hlen, Hw, encode_all_replicate, length_replicate.
  repeat split. lia.
Qed.

Lemma displayColor_fills_strip_witness :
  fst (displayColor 300 (-1) 7 (init 12 true [])) = Ok tt /\
  wire (log (serial (snd (displayColor 300 (-1) 7 (init 12 true []))))) =
    concat (replicate (Z.to_nat 12) (encode 300 (-1) 7)) ++ control /\
  Z.of_nat (length (wire (log (serial (snd (displayColor 300 (-1) 7 (init 12 true [])))))))
    = 3 * 12 + 3.
Proof. apply (displayColor_fills_strip 300 (-1) 7 12 true []). lia. Defined.

(** X12: [displayColor] on a short strip.  With one to nine LEDs it
    raises [RuntimeError] on its first pixel and nothing is written; with
    a [ledCount] of zero or less it sends the sentinel alone. *)
Theorem displayColor_short_strip (r g b n : Z) (mode : bool) (input : list byte) :
  (1 <= n <= 9 ->
   displayColor r g b (init n mode input) = (Raise RuntimeError, init n mode input)) /\
  (n <= 0 ->
   fst (displayColor r g b (init n mode input)) = Ok tt /\
   wire (log (serial (snd (displayColor r g b (init n mode input))))) = control).
Proof.
  split; intros Hn; rewrite displayColor_frame; simpl ledCount.
  - destruct (Z.to_nat n) as [|k] eqn:Hk; [lia|].
    simpl replicate. apply send_frame_refused. simpl. lia.
  - replace (Z.to_nat n) with 0%nat by lia.
    unfold send_frame, send_pixels. simpl for_each. rewrite bind_ret, show_run.
    now destruct mode.
Qed.

Lemma displayColor_short_strip_witness :
  displayColor 1 2 3 (init 5 true []) = (Raise RuntimeError, init 5 true []) /\
  fst (displayColor 1 2 3 (init 0 false [])) = Ok tt /\
  wire (log (serial (snd (displayColor 1 2 3 (init 0 false []))))) = control.
Proof.
  split.
  - apply (proj1 (displayColor_short_strip 1 2 3 5 true [])). lia.
  - apply (proj2 (displayColor_short_strip 1 2 3 0 false [])). lia.
Defined.

Lemma for_each_ext {A} (l : list A) (body body' : A -> M unit) :
  (forall x, body x = body' x) -> for_each l body = for_each l body'.
Proof. intros H. induction l as [|x l IH]; simpl; [reflexivity | now rewrite H, IH]. Qed.

Lemma for_each_map {A B} (f : A -> B) (l : list A) (body : B -> M unit) :
  for_each (map f l) body = for_each l (fun x => body (f x)).
Proof. induction l as [|x l IH]; simpl; [reflexivity | now rewrite IH]. Qed.

Lemma example_frame_colors (pixel : Z) :
  example_frame pixel = send_frame (example_colors pixel).
Proof.
  unfold example_frame, send_frame, send_pixels, example_colors.
  rewrite for_each_map. f_equal. apply for_each_ext.
  intros pos. now destruct (pos =? pixel).
Qed.

(** X13: the example at the end of the module.  On a strip of more than
    nine LEDs (the example has the default 60) the frame for position
    [pixel] is twelve pixels, all dark but the one at [pixel], which goes
    out as (0, 0, 254): the 255 the example asks for is clamped and the
    only 255 on the wire is the sentinel.  One pass of the loop sends
    twelve such frames, 468 bytes. *)
Theorem example_frame_lights_one_pixel (pixel n : Z) (mode : bool) (input : list byte) :
  0 <= pixel < 12 -> 9 < n ->
  fst (example_frame pixel (init n mode input)) = Ok tt /\
  wire (log (serial (snd (example_frame pixel (init n mode input))))) =
    replicate (Z.to_nat (3 * pixel)) x00 ++ [x00; x00; xfe]
    ++ replicate (Z.to_nat (3 * (11 - pixel))) x00 ++ [x00; x00; xff] /\
  fst (example_pass (init n mode input)) = Ok tt /\
  length (wire (log (serial (snd (example_pass (init n mode input)))))) = 468%nat.
Proof.
  intros Hpixel Hn. rewrite example_frame_colors.
  pose proof (send_frame_wire n mode (example_colors pixel) input Hn) as Hframe.
  destruct (send_frame (example_colors pixel) (init n mode input)) as [result self].
  destruct Hframe as (-> & Hw & _). simpl fst. simpl snd. rewrite Hw.
  split; [reflexivity|]. split.
  - assert (Hcases : pixel = 0 \/ pixel = 1 \/ pixel = 2 \/ pixel = 3 \/ pixel = 4 \/
                     pixel = 5 \/ pixel = 6 \/ pixel = 7 \/ pixel = 8 \/ pixel = 9 \/
                     pixel = 10 \/ pixel = 11) by lia.
    repeat (destruct Hcases as [->|Hcases]); try subst pixel; vm_compute; reflexivity.
  - unfold example_pass.
    rewrite (for_each_ext _ _ (fun pixel => send_frame (example_colors pixel)))
      by apply example_frame_colors.
    rewrite <- (for_each_map example_colors (range 12) send_frame).
    destruct (frames_run (map example_colors (range 12)) (init n mode input) Hn eq_refl)
      as (final & Hrun & _ & Hwire).
    split; [exact (f_equal fst Hrun)|].
    etransitivity;
      [exact (f_equal (fun r => length (wire (log (serial (snd r))))) Hrun)|].
    etransitivity; [exact (f_equal (@length byte) Hwire)|]. vm_compute. reflexivity.
Qed.

Lemma example_frame_lights_one_pixel_witness :
  fst (example_frame 4 (init 60 true [])) = Ok tt /\
  wire (log (serial (snd (example_frame 4 (init 60 true []))))) =
    replicate (Z.to_nat (3 * 4)) x00 ++ [x00; x00; xfe]
    ++ replicate (Z.to_nat (3 * (11 - 4))) x00 ++ [x00; x00; xff] /\
  fst (example_pass (init 60 true [])) = Ok tt /\
  length (wire (log (serial (snd (example_pass (init 60 true [])))))) = 468%nat.
Proof. apply (example_frame_lights_one_pixel 4 60 true []); lia. Defined.

(** * Further properties of the commands *)

Lemma sendCommand_wire (command : list byte) (self : BlinkyTape) :
  wire (log (serial (snd (sendCommand command self)))) =
  wire (log (serial self)) ++ preamble ++ command.
Proof.
  destruct (sendCommand_log command self) as (later & Hlog & Hnone).
  rewrite Hlog, !wire_app, (wire_concat_writes later), Hnone. simpl.
  now rewrite !app_nil_r.
Qed.

Lemma sendCommand_ok (command : list byte) (self : BlinkyTape)
    (h0 h1 : byte) (payload : list byte) :
  rx (serial self) = h0 :: h1 :: payload ->
  ord h1 + 1 <= Z.of_nat (length payload) ->
  sendCommand command self =
  (Ok (Byte.eqb h0 "P"%byte, take (Z.to_nat (ord h1 + 1)) payload),
   called self (round_trip command (Z.to_nat (ord h1 + 1))) []).
Proof.
  intros Hrx Hlen. rewrite sendCommand_run, Hrx. cbv zeta.
  now replace (Z.to_nat (ord h1 + 1) <=? length payload)%nat with true
    by (symmetry; apply Nat.leb_le; lia).
Qed.

Lemma eqb_P (h0 : byte) : Byte.eqb h0 "P"%byte = true <-> h0 = "P"%byte.
Proof. split; [apply Byte.byte_dec_bl | apply Byte.byte_dec_lb]. Qed.

Lemma eqb_not_P (h0 : byte) : h0 <> "P"%byte -> Byte.eqb h0 "P"%byte = false.
Proof.
  intros H. destruct (Byte.eqb h0 "P"%byte) eqn:E; [|reflexivity].
  now apply eqb_P in E.
Qed.

Lemma u32_at_four (d0 d1 d2 d3 : byte) (rest : list byte) :
  u32_at (d0 :: d1 :: d2 :: d3 :: rest)
  = 0 + Z.shiftl (ord d0) 24 + Z.shiftl (ord d1) 16 + Z.shiftl (ord d2) 8
    + Z.shiftl (ord d3) 0.
Proof.
  unfold u32_at, be_value. simpl. rewrite !Z.shiftl_mul_pow2 by lia.
  change (2 ^ 24) with 16777216. change (2 ^ 16) with 65536.
  change (2 ^ 8) with 256. change (2 ^ 0) with 1. lia.
Qed.

Lemma u32_at_range (data : list byte) : 0 <= u32_at data < 2 ^ 32.
Proof.
  unfold u32_at, be_value.
  destruct data as [|d0 [|d1 [|d2 [|d3 rest]]]]; simpl;
    repeat match goal with
           | d : byte |- _ => pose proof (ord_range d); generalize dependent (ord d);
                              clear d; intros
           end; lia.
Qed.

(** The decoding block by cases on the reply. *)
Lemma decode_reply_run {A} (fin : bool -> Z -> A) (status : bool) (data : list byte)
    (self : BlinkyTape) :
  decode_reply fin (status, data) self =
  if status
  then if (4 <=? length data)%nat
       then (Ok (fin true (u32_at data)), self)
       else (Raise IndexError, self)
  else (Ok (fin false 0), self).
Proof.
  unfold decode_reply. destruct status; [|reflexivity].
  destruct data as [|d0 [|d1 [|d2 [|d3 rest]]]]; try reflexivity.
  rewrite u32_at_four. reflexivity.
Qed.

Lemma take_all_available (size : nat) (payload : list byte) :
  (size <= length payload)%nat -> length (take size payload) = size.
Proof. intros H. rewrite length_take. lia. Qed.

Lemma u32_at_take (size : nat) (payload : list byte) :
  (4 <= size)%nat -> u32_at (take size payload) = u32_at payload.
Proof.
  intros H. unfold u32_at. rewrite take_take. now replace (4 `min` size)%nat with 4%nat by lia.
Qed.

Lemma u32_at_be32 (v : Z) (rest : list byte) :
  0 <= v < 2 ^ 32 -> u32_at (map byte_of (be32 v) ++ rest) = v.
Proof.
  intros Hv. unfold u32_at. change (take 4 (map byte_of (be32 v) ++ rest))
    with (map byte_of (be32 v)).
  rewrite <- (be_value_be32 v Hv) at 2. f_equal. unfold be32. simpl.
  rewrite !ord_byte_of by (apply Z.mod_pos_bound; lia). reflexivity.
Qed.

(** A command followed by the decoding block, on a complete reply. *)
Lemma query_run {A} (fin : bool -> Z -> A) (command : list byte) (self : BlinkyTape)
    (h0 h1 : byte) (payload : list byte) :
  rx (serial self) = h0 :: h1 :: payload ->
  ord h1 + 1 <= Z.of_nat (length payload) ->
  (reply <- sendCommand command ;; decode_reply fin reply) self =
  if Byte.eqb h0 "P"%byte
  then if 3 <=? ord h1
       then (Ok (fin true (u32_at payload)),
             called self (round_trip command (Z.to_nat (ord h1 + 1))) [])
       else (Raise IndexError,
             called self (round_trip command (Z.to_nat (ord h1 + 1))) [])
  else (Ok (fin false 0), called self (round_trip command (Z.to_nat (ord h1 + 1))) []).
Proof.
  intros Hrx Hlen. pose proof (ord_range h1) as Hh1.
  rewrite (bind_run _ _ _ _ _ (sendCommand_ok command self h0 h1 payload Hrx Hlen)).
  rewrite decode_reply_run, take_all_available by lia.
  destruct (Byte.eqb h0 "P"%byte); [|reflexivity].
  destruct (3 <=? ord h1) eqn:Hfour.
  - apply Z.leb_le in Hfour.
    replace (4 <=? Z.to_nat (ord h1 + 1))%nat with true by (symmetry; apply Nat.leb_le; lia).
    now rewrite u32_at_take by lia.
  - apply Z.leb_gt in Hfour.
    now replace (4 <=? Z.to_nat (ord h1 + 1))%nat with false
      by (symmetry; apply Nat.leb_gt; lia).
Qed.

Lemma getFreeSpace_shape :
  getFreeSpace = (c <- chr 0x10 ;; reply <- sendCommand [c] ;; decode_reply (fun _ v => v) reply).
Proof. reflexivity. Qed.

Lemma getLargestFile_shape :
  getLargestFile
  = (c <- chr 0x11 ;; reply <- sendCommand [c] ;; decode_reply (fun _ v => v) reply).
Proof. reflexivity. Qed.

Lemma getFileCount_shape :
  getFileCount
  = (c <- chr 0x12 ;; reply <- sendCommand [c] ;; decode_reply (fun _ v => v) reply).
Proof. reflexivity. Qed.

Lemma getFirstFreeSector_shape :
  getFirstFreeSector
  = (c <- chr 0x13 ;; reply <- sendCommand [c] ;; decode_reply (fun _ v => v) reply).
Proof. reflexivity. Qed.

Ltac run_getter Hrx Hlen :=
  rewrite ?getFreeSpace_shape, ?getLargestFile_shape, ?getFileCount_shape,
    ?getFirstFreeSector_shape;
  rewrite !chr_ok by lia; rewrite !bind_ret;
  rewrite !(query_run _ _ _ _ _ _ Hrx Hlen).

(** X14: a reply that never completes.  With fewer than two bytes to
    read, or fewer data bytes than the header announces, [sendCommand]
    does not return, and by then the preamble and the command have been
    written. *)
Theorem sendCommand_blocks_after_writing (command : list byte) (self : BlinkyTape) :
  (length (rx (serial self)) < 2)%nat \/
  (exists h0 h1 payload,
     rx (serial self) = h0 :: h1 :: payload /\ Z.of_nat (length payload) < ord h1 + 1) ->
  fst (sendCommand command self) = Blocked /\
  wire (log (serial (snd (sendCommand command self)))) =
    wire (log (serial self)) ++ replicate 10 xff ++ command.
Proof.
  intros Hshort. split; [|apply sendCommand_wire].
  rewrite sendCommand_run. cbv zeta.
  destruct Hshort as [Hshort|(h0 & h1 & payload & -> & Hshort)].
  - destruct (rx (serial self)) as [|h0 [|h1 payload]]; try reflexivity.
    simpl in Hshort. lia.
  - now replace (Z.to_nat (ord h1 + 1) <=? length payload)%nat with false
      by (symmetry; apply Nat.leb_gt; lia).
Qed.

Lemma sendCommand_blocks_after_writing_witness :
  (fst (sendCommand [x10] (init 60 true ["P"%byte])) = Blocked /\
   wire (log (serial (snd (sendCommand [x10] (init 60 true ["P"%byte]))))) =
     wire (log (serial (init 60 true ["P"%byte]))) ++ replicate 10 xff ++ [x10]) /\
  (fst (sendCommand [x10] (init 60 true ["P"%byte; x03; x01; x02; x03])) = Blocked /\
   wire (log (serial (snd (sendCommand [x10] (init 60 true ["P"%byte; x03; x01; x02; x03])))))
     = wire (log (serial (init 60 true ["P"%byte; x03; x01; x02; x03])))
       ++ replicate 10 xff ++ [x10]).
Proof.
  split.
  - apply (sendCommand_blocks_after_writing [x10] (init 60 true ["P"%byte])).
    left. simpl. lia.
  - apply (sendCommand_blocks_after_writing [x10]
             (init 60 true ["P"%byte; x03; x01; x02; x03])).
    right. exists "P"%byte, x03, [x01; x02; x03]. split; [reflexivity|].
    vm_compute. reflexivity.
Defined.

(** X15: what [sendCommand] leaves alone and what it returns.  It never
    raises and never touches [ledCount], [buffered] or [buf]; when it
    returns, the input is drained and the data it hands back is between
    1 and 256 bytes long. *)
Theorem sendCommand_keeps_pixel_state (command : list byte) (self : BlinkyTape) :
  ledCount (snd (sendCommand command self)) = ledCount self /\
  buffered (snd (sendCommand command self)) = buffered self /\
  buf (snd (sendCommand command self)) = buf self /\
  (forall e, fst (sendCommand command self) <> Raise e) /\
  (forall status data,
     fst (sendCommand command self) = Ok (status, data) ->
     rx (serial (snd (sendCommand command self))) = [] /\
     (1 <= length data <= 256)%nat).
Proof.
  rewrite sendCommand_run. cbv zeta.
  destruct (rx (serial self)) as [|h0 [|h1 payload]]; simpl;
    try (repeat split; discriminate).
  destruct (Z.to_nat (ord h1 + 1) <=? length payload)%nat eqn:Hsize; simpl;
    repeat split; try discriminate.
  - injection H as _ <-. pose proof (ord_range h1). apply Nat.leb_le in Hsize.
    rewrite length_take. lia.
  - injection H as _ <-. pose proof (ord_range h1). apply Nat.leb_le in Hsize.
    rewrite length_take. lia.
Qed.

Lemma sendCommand_keeps_pixel_state_witness :
  rx (serial (snd (sendCommand [x02] (init 60 true ["F"%byte; x00; x07; x08])))) = [] /\
  (1 <= length [x07] <= 256)%nat.
Proof.
  apply (proj2 (proj2 (proj2 (proj2
           (sendCommand_keeps_pixel_state [x02] (init 60 true ["F"%byte; x00; x07; x08])))))
         false [x07]).
  reflexivity.
Defined.

(** X16: a command between pixels and their show.  In buffered mode the
    command overtakes the pending pixels, which follow it with the
    sentinel; in immediate mode the pixels are already out when the
    command is written. *)
Theorem command_overtakes_pending_pixels (n : Z) (colors : list pixel)
    (command : list byte) (h0 h1 : byte) (payload : list byte) :
  9 < n -> ord h1 + 1 <= Z.of_nat (length payload) ->
  wire (log (serial (snd ((send_pixels colors ;;; sendCommand command ;;; show)
                            (init n true (h0 :: h1 :: payload))))))
    = replicate 10 xff ++ command ++ encode_all colors ++ control /\
  wire (log (serial (snd ((send_pixels colors ;;; sendCommand command ;;; show)
                            (init n false (h0 :: h1 :: payload))))))
    = encode_all colors ++ replicate 10 xff ++ command ++ control.
Proof.
  intros Hn Hlen. split.
  - erewrite bind_run by (apply send_pixels_run; exact Hn). simpl.
    erewrite bind_run by (apply sendCommand_ok; [reflexivity | exact Hlen]).
    rewrite show_run. simpl. rewrite !app_nil_r. reflexivity.
  - erewrite bind_run by (apply send_pixels_run; exact Hn). simpl.
    erewrite bind_run by (apply sendCommand_ok; [reflexivity | exact Hlen]).
    rewrite show_run. simpl. rewrite !wire_app, wire_immediate. simpl.
    rewrite !app_nil_r, <- !app_assoc. reflexivity.
Qed.

Lemma command_overtakes_pending_pixels_witness :
  wire (log (serial (snd ((send_pixels [(1, 2, 3)] ;;; sendCommand [x02] ;;; show)
                            (init 60 true ("P"%byte :: x00 :: [x07]))))))
    = replicate 10 xff ++ [x02] ++ encode_all [(1, 2, 3)] ++ control /\
  wire (log (serial (snd ((send_pixels [(1, 2, 3)] ;;; sendCommand [x02] ;;; show)
                            (init 60 false ("P"%byte :: x00 :: [x07]))))))
    = encode_all [(1, 2, 3)] ++ replicate 10 xff ++ [x02] ++ control.
Proof.
  apply (command_overtakes_pending_pixels 60 [(1, 2, 3)] [x02] "P"%byte x00 [x07]).
  - lia.
  - vm_compute. discriminate.
Defined.

(** X17: the four queries with a 32-bit answer.  On a reply with status
    'P' that carries at least four data bytes, [getFreeSpace],
    [getLargestFile], [getFileCount] and [getFirstFreeSector] return the
    number the first four bytes spell, most significant first; it lies
    in [0, 2^32) and further data bytes are ignored. *)
Theorem queries_decode_big_endian (self : BlinkyTape) (h1 : byte) (payload : list byte) :
  rx (serial self) = "P"%byte :: h1 :: payload ->
  3 <= ord h1 -> ord h1 + 1 <= Z.of_nat (length payload) ->
  fst (getFreeSpace self) = Ok (u32_at payload) /\
  fst (getLargestFile self) = Ok (u32_at payload) /\
  fst (getFileCount self) = Ok (u32_at payload) /\
  fst (getFirstFreeSector self) = Ok (u32_at payload) /\
  0 <= u32_at payload < 2 ^ 32.
Proof.
  intros Hrx Hfour Hlen. apply Z.leb_le in Hfour.
  repeat split; try apply u32_at_range; run_getter Hrx Hlen; now rewrite Hfour.
Qed.

Lemma queries_decode_big_endian_witness :
  fst (getFreeSpace (init 60 true ["P"%byte; x04; x00; x00; x01; x02; x09])) =
    Ok (u32_at [x00; x00; x01; x02; x09]) /\
  fst (getLargestFile (init 60 true ["P"%byte; x04; x00; x00; x01; x02; x09])) =
    Ok (u32_at [x00; x00; x01; x02; x09]) /\
  fst (getFileCount (init 60 true ["P"%byte; x04; x00; x00; x01; x02; x09])) =
    Ok (u32_at [x00; x00; x01; x02; x09]) /\
  fst (getFirstFreeSector (init 60 true ["P"%byte; x04; x00; x00; x01; x02; x09])) =
    Ok (u32_at [x00; x00; x01; x02; x09]) /\
  0 <= u32_at [x00; x00; x01; x02; x09] < 2 ^ 32.
Proof.
  apply (queries_decode_big_endian (init 60 true ["P"%byte; x04; x00; x00; x01; x02; x09])
                                   x04 [x00; x00; x01; x02; x09]).
  - reflexivity.
  - vm_compute. discriminate.
  - vm_compute. discriminate.
Defined.

(** X18: the round trip of a 32-bit answer.  When the device answers 'P',
    3 and the four bytes of a number below 2^32, most significant first,
    each of the four queries returns that number. *)
Theorem queries_round_trip (v n : Z) (mode : bool) :
  0 <= v < 2 ^ 32 ->
  fst (getFreeSpace (init n mode ("P"%byte :: x03 :: map byte_of (be32 v)))) = Ok v /\
  fst (getLargestFile (init n mode ("P"%byte :: x03 :: map byte_of (be32 v)))) = Ok v /\
  fst (getFileCount (init n mode ("P"%byte :: x03 :: map byte_of (be32 v)))) = Ok v /\
  fst (getFirstFreeSector (init n mode ("P"%byte :: x03 :: map byte_of (be32 v)))) = Ok v.
Proof.
  intros Hv.
  assert (Hrx : rx (serial (init n mode ("P"%byte :: x03 :: map byte_of (be32 v))))
                = "P"%byte :: x03 :: map byte_of (be32 v)) by reflexivity.
  assert (Hlen : ord x03 + 1 <= Z.of_nat (length (map byte_of (be32 v))))
    by (vm_compute; discriminate).
  pose proof (u32_at_be32 v [] Hv) as Hvalue. rewrite app_nil_r in Hvalue.
  repeat split; run_getter Hrx Hlen; rewrite Hvalue; reflexivity.
Qed.

Lemma queries_round_trip_witness :
  fst (getFreeSpace (init 60 true ("P"%byte :: x03 :: map byte_of (be32 3000000000))))
    = Ok 3000000000 /\
  fst (getLargestFile (init 60 true ("P"%byte :: x03 :: map byte_of (be32 3000000000))))
    = Ok 3000000000 /\
  fst (getFileCount (init 60 true ("P"%byte :: x03 :: map byte_of (be32 3000000000))))
    = Ok 3000000000 /\
  fst (getFirstFreeSector (init 60 true ("P"%byte :: x03 :: map byte_of (be32 3000000000))))
    = Ok 3000000000.
Proof. apply (queries_round_trip 3000000000 60 true). lia. Defined.

(** X19: a success reply that is too short.  With status 'P' and fewer
    than four data bytes each of the four queries raises [IndexError],
    after the whole round trip: the command is on the wire and the input
    is drained. *)
Theorem queries_short_reply (self : BlinkyTape) (h1 : byte) (payload : list byte) :
  rx (serial self) = "P"%byte :: h1 :: payload ->
  ord h1 < 3 -> ord h1 + 1 <= Z.of_nat (length payload) ->
  fst (getFreeSpace self) = Raise IndexError /\
  fst (getLargestFile self) = Raise IndexError /\
  fst (getFileCount self) = Raise IndexError /\
  fst (getFirstFreeSector self) = Raise IndexError /\
  rx (serial (snd (getFreeSpace self))) = [] /\
  wire (log (serial (snd (getFreeSpace self)))) =
    wire (log (serial self)) ++ replicate 10 xff ++ [x10].
Proof.
  intros Hrx Hshort Hlen. apply Z.leb_gt in Hshort.
  repeat split; run_getter Hrx Hlen; rewrite Hshort; try reflexivity.
  simpl. rewrite wire_app. simpl. now rewrite ?app_nil_r.
Qed.

Lemma queries_short_reply_witness :
  fst (getFreeSpace (init 60 true ["P"%byte; x02; x01; x02; x03])) = Raise IndexError /\
  fst (getLargestFile (init 60 true ["P"%byte; x02; x01; x02; x03])) = Raise IndexError /\
  fst (getFileCount (init 60 true ["P"%byte; x02; x01; x02; x03])) = Raise IndexError /\
  fst (getFirstFreeSector (init 60 true ["P"%byte; x02; x01; x02; x03])) = Raise IndexError /\
  rx (serial (snd (getFreeSpace (init 60 true ["P"%byte; x02; x01; x02; x03])))) = [] /\
  wire (log (serial (snd (getFreeSpace (init 60 true ["P"%byte; x02; x01; x02; x03]))))) =
    wire (log (serial (init 60 true ["P"%byte; x02; x01; x02; x03])))
    ++ replicate 10 xff ++ [x10].
Proof.
  apply (queries_short_reply (init 60 true ["P"%byte; x02; x01; x02; x03])
                             x02 [x01; x02; x03]).
  - reflexivity.
  - vm_compute. reflexivity.
  - vm_compute. discriminate.
Defined.

(** X20: a failed query reads as zero.  When the status byte is not 'P',
    [getLargestFile], [getFileCount] and [getFirstFreeSector] return 0
    whatever the data is, also when it is shorter than four bytes; the
    caller cannot tell a refusal from an answer of zero. *)
Theorem queries_failure_is_zero (self : BlinkyTape) (h0 h1 : byte) (payload : list byte) :
  rx (serial self) = h0 :: h1 :: payload ->
  h0 <> "P"%byte -> ord h1 + 1 <= Z.of_nat (length payload) ->
  fst (getLargestFile self) = Ok 0 /\
  fst (getFileCount self) = Ok 0 /\
  fst (getFirstFreeSector self) = Ok 0 /\
  fst (getLargestFile self)
    = fst (getLargestFile (init (ledCount self) (buffered self)
                                ["P"%byte; x03; x00; x00; x00; x00])).
Proof.
  intros Hrx Hfail Hlen. apply eqb_not_P in Hfail.
  repeat split; run_getter Hrx Hlen; now rewrite Hfail.
Qed.

Lemma queries_failure_is_zero_witness :
  fst (getLargestFile (init 60 true ["F"%byte; x00; x09])) = Ok 0 /\
  fst (getFileCount (init 60 true ["F"%byte; x00; x09])) = Ok 0 /\
  fst (getFirstFreeSector (init 60 true ["F"%byte; x00; x09])) = Ok 0 /\
  fst (getLargestFile (init 60 true ["F"%byte; x00; x09]))
    = fst (getLargestFile (init (ledCount (init 60 true ["F"%byte; x00; x09]))
                                (buffered (init 60 true ["F"%byte; x00; x09]))
                                ["P"%byte; x03; x00; x00; x00; x00])).
Proof.
  apply (queries_failure_is_zero (init 60 true ["F"%byte; x00; x09]) "F"%byte x00 [x09]).
  - reflexivity.
  - discriminate.
  - vm_compute. discriminate.
Defined.

Lemma be_value_be16 (n : Z) : 0 <= n < 2 ^ 16 -> be_value (be16 n) = n.
Proof.
  intros Hn. unfold be_value, be16. simpl. change (2 ^ 8) with 256.
  change (2 ^ 16) with (256 * 256) in Hn.
  rewrite (Z.mod_small (n / 256)) by
    (split; [apply Z.div_pos; lia | apply Z.div_lt_upper_bound; lia]).
  pose proof (Z.div_mod n 256). lia.
Qed.

(** What a method that builds a command and hands it to [sendCommand]
    has written: [request] names the command in the goal and reduces the
    goal to the layout of its bytes. *)
Ltac request self :=
  build_command;
  match goal with
  | |- context [sendCommand ?c] =>
      exists c; split;
      [ first [ rewrite bind_same_state by (first [now intros [? ?] ? | reflexivity])
              | idtac ];
        apply sendCommand_wire
      | ]
  end.

(** X21: [programAddress] sends opcode 1 and the address as two bytes,
    most significant first, so an address below 65536 can be read back
    from the wire. *)
Theorem programAddress_request (address : Z) (self : BlinkyTape) :
  0 <= address < 2 ^ 16 ->
  exists command,
    wire (log (serial (snd (programAddress address self)))) =
      wire (log (serial self)) ++ replicate 10 xff ++ command /\
    map ord command = 0x01 :: be16 address /\
    be_value (tail (map ord command)) = address.
Proof.
  intros Haddress. unfold programAddress. request self.
  assert (Hbytes : forall c0 c1 c2 : byte,
            map ord (([c0] ++ [c1]) ++ [c2]) = [ord c0; ord c1; ord c2]) by reflexivity.
  rewrite Hbytes, ord_shifted_byte, ord_low_byte, ord_byte_of by lia.
  split; [reflexivity|]. apply (be_value_be16 address Haddress).
Qed.

Lemma programAddress_request_witness :
  exists command,
    wire (log (serial (snd (programAddress 1023 (init 60 true []))))) =
      wire (log (serial (init 60 true []))) ++ replicate 10 xff ++ command /\
    map ord command = 0x01 :: be16 1023 /\
    be_value (tail (map ord command)) = 1023.
Proof. apply (programAddress_request 1023 (init 60 true [])). lia. Defined.

Lemma getIsFile_shape (sector : Z) :
  getIsFile sector =
  (c <- chr 0x14 ;; let command := [c] in
   c <- chr (Z.land (Z.shiftr sector 24) 0xFF) ;; let command := command ++ [c] in
   c <- chr (Z.land (Z.shiftr sector 16) 0xFF) ;; let command := command ++ [c] in
   c <- chr (Z.land (Z.shiftr sector 8) 0xFF) ;; let command := command ++ [c] in
   c <- chr (Z.land sector 0xFF) ;; let command := command ++ [c] in
   reply <- sendCommand command ;; decode_reply (fun status v => (status, v)) reply).
Proof. reflexivity. Qed.

Lemma createFile_shape (fileType fileLength : Z) :
  createFile fileType fileLength =
  (c <- chr 0x18 ;; let command := [c] in
   c <- chr (Z.land fileType 0xFF) ;; let command := command ++ [c] in
   c <- chr (Z.land (Z.shiftr fileLength 24) 0xFF) ;; let command := command ++ [c] in
   c <- chr (Z.land (Z.shiftr fileLength 16) 0xFF) ;; let command := command ++ [c] in
   c <- chr (Z.land (Z.shiftr fileLength 8) 0xFF) ;; let command := command ++ [c] in
   c <- chr (Z.land fileLength 0xFF) ;; let command := command ++ [c] in
   reply <- sendCommand command ;; decode_reply (fun status v => (status, v)) reply).
Proof. reflexivity. Qed.

Lemma decode_reply_same_state {A} (fin : bool -> Z -> A) (reply : bool * list byte)
    (self : BlinkyTape) :
  snd (decode_reply fin reply self) = self.
Proof.
  destruct reply as [status data]. rewrite decode_reply_run.
  destruct status; [destruct (4 <=? length data)%nat|]; reflexivity.
Qed.

(** X22: [getIsFile] sends opcode [0x14] and the sector as four bytes,
    most significant first.  On a success reply with at least four data
    bytes it returns true and the number they spell; on a reply with
    another status it returns false and 0. *)
Theorem getIsFile_round_trip (sector : Z) (self : BlinkyTape)
    (h0 h1 : byte) (payload : list byte) :
  rx (serial self) = h0 :: h1 :: payload ->
  ord h1 + 1 <= Z.of_nat (length payload) ->
  (exists command,
     wire (log (serial (snd (getIsFile sector self)))) =
       wire (log (serial self)) ++ replicate 10 xff ++ command /\
     map ord command = 0x14 :: be32 sector) /\
  (h0 = "P"%byte -> 3 <= ord h1 ->
   fst (getIsFile sector self) = Ok (true, u32_at payload)) /\
  (h0 <> "P"%byte -> fst (getIsFile sector self) = Ok (false, 0)).
Proof.
  intros Hrx Hlen. rewrite getIsFile_shape. cbv zeta. split; [|split].
  - build_command.
    match goal with |- context [sendCommand ?c] => exists c end.
    split.
    + rewrite bind_same_state by apply decode_reply_same_state. apply sendCommand_wire.
    + unfold be32. simpl app. now field_bytes.
  - intros -> Hfour. build_command. rewrite (query_run _ _ _ _ _ _ Hrx Hlen).
    apply Z.leb_le in Hfour. now rewrite Hfour.
  - intros Hfail. build_command. rewrite (query_run _ _ _ _ _ _ Hrx Hlen).
    now rewrite (eqb_not_P _ Hfail).
Qed.

Lemma getIsFile_round_trip_witness :
  (exists command,
     wire (log (serial (snd (getIsFile 0x01020304
                               (init 60 true ["P"%byte; x03; x00; x00; x00; x07])))))
       = wire (log (serial (init 60 true ["P"%byte; x03; x00; x00; x00; x07])))
         ++ replicate 10 xff ++ command /\
     map ord command = 0x14 :: be32 0x01020304) /\
  ("P"%byte = "P"%byte -> 3 <= ord x03 ->
   fst (getIsFile 0x01020304 (init 60 true ["P"%byte; x03; x00; x00; x00; x07]))
     = Ok (true, u32_at [x00; x00; x00; x07])) /\
  ("P"%byte <> "P"%byte ->
   fst (getIsFile 0x01020304 (init 60 true ["P"%byte; x03; x00; x00; x00; x07]))
     = Ok (false, 0)).
Proof.
  apply (getIsFile_round_trip 0x01020304 (init 60 true ["P"%byte; x03; x00; x00; x00; x07])
                              "P"%byte x03 [x00; x00; x00; x07]).
  - reflexivity.
  - vm_compute. discriminate.
Defined.

(** X23: [deleteFile] sends opcode [0x15] and the sector as four bytes,
    most significant first, and returns whether the status byte of the
    reply is 'P'; the data of the reply plays no part. *)
Theorem deleteFile_round_trip (sector : Z) (self : BlinkyTape)
    (h0 h1 : byte) (payload : list byte) :
  rx (serial self) = h0 :: h1 :: payload ->
  ord h1 + 1 <= Z.of_nat (length payload) ->
  (exists command,
     wire (log (serial (snd (deleteFile sector self)))) =
       wire (log (serial self)) ++ replicate 10 xff ++ command /\
     map ord command = 0x15 :: be32 sector) /\
  fst (deleteFile sector self) = Ok (Byte.eqb h0 "P"%byte) /\
  (fst (deleteFile sector self) = Ok true <-> h0 = "P"%byte).
Proof.
  intros Hrx Hlen. unfold deleteFile. cbv zeta.
  assert (Hresult : fst (deleteFile sector self) = Ok (Byte.eqb h0 "P"%byte)).
  { unfold deleteFile. cbv zeta. build_command.
    now erewrite bind_run by (apply sendCommand_ok; eassumption). }
  split; [|split].
  - request self. unfold be32. simpl app. now field_bytes.
  - exact Hresult.
  - fold (deleteFile sector). rewrite Hresult, <- eqb_P.
    split; [now intros [= ->] | now intros ->].
Qed.

Lemma deleteFile_round_trip_witness :
  (exists command,
     wire (log (serial (snd (deleteFile 7 (init 60 true ["P"%byte; x00; x00]))))) =
       wire (log (serial (init 60 true ["P"%byte; x00; x00]))) ++ replicate 10 xff ++ command /\
     map ord command = 0x15 :: be32 7) /\
  fst (deleteFile 7 (init 60 true ["P"%byte; x00; x00])) = Ok (Byte.eqb "P"%byte "P"%byte) /\
  (fst (deleteFile 7 (init 60 true ["P"%byte; x00; x00])) = Ok true <-> "P"%byte = "P"%byte).
Proof.
  apply (deleteFile_round_trip 7 (init 60 true ["P"%byte; x00; x00]) "P"%byte x00 [x00]).
  - reflexivity.
  - vm_compute. discriminate.
Defined.

(** X24: [createFile] sends opcode [0x18], the low byte of the file type
    and the length as four bytes, most significant first.  On a success
    reply with at least four data bytes it returns true and the sector
    they spell; on a reply with another status it returns false and 0. *)
Theorem createFile_round_trip (fileType fileLength : Z) (self : BlinkyTape)
    (h0 h1 : byte) (payload : list byte) :
  rx (serial self) = h0 :: h1 :: payload ->
  ord h1 + 1 <= Z.of_nat (length payload) ->
  (exists command,
     wire (log (serial (snd (createFile fileType fileLength self)))) =
       wire (log (serial self)) ++ replicate 10 xff ++ command /\
     map ord command = 0x18 :: fileType mod 256 :: be32 fileLength) /\
  (h0 = "P"%byte -> 3 <= ord h1 ->
   fst (createFile fileType fileLength self) = Ok (true, u32_at payload)) /\
  (h0 <> "P"%byte -> fst (createFile fileType fileLength self) = Ok (false, 0)).
Proof.
  intros Hrx Hlen. rewrite createFile_shape. cbv zeta. split; [|split].
  - build_command.
    match goal with |- context [sendCommand ?c] => exists c end.
    split.
    + rewrite bind_same_state by apply decode_reply_same_state. apply sendCommand_wire.
    + unfold be32. simpl app. now field_bytes.
  - intros -> Hfour. build_command. rewrite (query_run _ _ _ _ _ _ Hrx Hlen).
    apply Z.leb_le in Hfour. now rewrite Hfour.
  - intros Hfail. build_command. rewrite (query_run _ _ _ _ _ _ Hrx Hlen).
    now rewrite (eqb_not_P _ Hfail).
Qed.

Lemma createFile_round_trip_witness :
  (exists command,
     wire (log (serial (snd (createFile 0x112 4096
                               (init 60 true ["F"%byte; x00; x00])))))
       = wire (log (serial (init 60 true ["F"%byte; x00; x00])))
         ++ replicate 10 xff ++ command /\
     map ord command = 0x18 :: 0x112 mod 256 :: be32 4096) /\
  ("F"%byte = "P"%byte -> 3 <= ord x00 ->
   fst (createFile 0x112 4096 (init 60 true ["F"%byte; x00; x00]))
     = Ok (true, u32_at [x00])) /\
  ("F"%byte <> "P"%byte ->
   fst (createFile 0x112 4096 (init 60 true ["F"%byte; x00; x00])) = Ok (false, 0)).
Proof.
  apply (createFile_round_trip 0x112 4096 (init 60 true ["F"%byte; x00; x00])
                               "F"%byte x00 [x00]).
  - reflexivity.
  - vm_compute. discriminate.
Defined.

(** X25: the commands that drop the reply.  [flashErase] sends opcode
    [0x20] followed by 'E' and 'e'.  It, [programAddress] and
    [reloadAnimations] return nothing: on every complete reply, whatever
    its status byte, the call ends the same way. *)
Theorem status_is_dropped (address : Z) (self : BlinkyTape)
    (h0 h1 : byte) (payload : list byte) :
  rx (serial self) = h0 :: h1 :: payload ->
  ord h1 + 1 <= Z.of_nat (length payload) ->
  fst (flashErase self) = Ok tt /\
  fst (programAddress address self) = Ok tt /\
  fst (reloadAnimations self) = Ok tt /\
  wire (log (serial (snd (flashErase self)))) =
    wire (log (serial self)) ++ replicate 10 xff ++ [x20; "E"%byte; "e"%byte].
Proof.
  intros Hrx Hlen. repeat split.
  - unfold flashErase. cbv zeta. build_command.
    now erewrite bind_run by (apply sendCommand_ok; eassumption).
  - unfold programAddress. cbv zeta. build_command.
    now erewrite bind_run by (apply sendCommand_ok; eassumption).
  - unfold reloadAnimations. cbv zeta. build_command.
    now erewrite bind_run by (apply sendCommand_ok; eassumption).
  - unfold flashErase. cbv zeta. build_command.
    rewrite bind_same_state by reflexivity. apply sendCommand_wire.
Qed.

Lemma status_is_dropped_witness :
  fst (flashErase (init 60 true ["F"%byte; x00; x00])) = Ok tt /\
  fst (programAddress 2 (init 60 true ["F"%byte; x00; x00])) = Ok tt /\
  fst (reloadAnimations (init 60 true ["F"%byte; x00; x00])) = Ok tt /\
  wire (log (serial (snd (flashErase (init 60 true ["F"%byte; x00; x00]))))) =
    wire (log (serial (init 60 true ["F"%byte; x00; x00])))
    ++ replicate 10 xff ++ [x20; "E"%byte; "e"%byte].
Proof.
  apply (status_is_dropped 2 (init 60 true ["F"%byte; x00; x00]) "F"%byte x00 [x00]).
  - reflexivity.
  - vm_compute. discriminate.
Defined.

(** X26: [flashRead] has no guard on the length.  It sends opcode [0x21],
    the address and the length as four bytes each, most significant
    first, whatever the length, and returns the status and the data of
    the reply, which is at most 256 bytes however much was asked for. *)
Theorem flashRead_round_trip (address len : Z) (self : BlinkyTape)
    (h0 h1 : byte) (payload : list byte) :
  rx (serial self) = h0 :: h1 :: payload ->
  ord h1 + 1 <= Z.of_nat (length payload) ->
  (exists command,
     wire (log (serial (snd (flashRead address len self)))) =
       wire (log (serial self)) ++ replicate 10 xff ++ command /\
     map ord command = 0x21 :: be32 address ++ be32 len) /\
  (exists data,
     fst (flashRead address len self) = Ok (Byte.eqb h0 "P"%byte, data) /\
     data = take (Z.to_nat (ord h1 + 1)) payload /\
     Z.of_nat (length data) = ord h1 + 1 /\ ord h1 + 1 <= 256).
Proof.
  intros Hrx Hlen. pose proof (ord_range h1) as Hh1. unfold flashRead. cbv zeta. split.
  - build_command.
    match goal with |- context [sendCommand ?c] => exists c end.
    split; [apply sendCommand_wire|].
    unfold be32. simpl app. rewrite !Z.shiftr_0_r. now field_bytes.
  - build_command. rewrite (sendCommand_ok _ _ _ _ _ Hrx Hlen).
    eexists. split; [reflexivity|]. split; [reflexivity|].
    rewrite take_all_available by lia. lia.
Qed.

Lemma flashRead_round_trip_witness :
  (exists command,
     wire (log (serial (snd (flashRead 0x10000 100000
                               (init 60 true ["P"%byte; x01; x0a; x0b; x0c])))))
       = wire (log (serial (init 60 true ["P"%byte; x01; x0a; x0b; x0c])))
         ++ replicate 10 xff ++ command /\
     map ord command = 0x21 :: be32 0x10000 ++ be32 100000) /\
  (exists data,
     fst (flashRead 0x10000 100000 (init 60 true ["P"%byte; x01; x0a; x0b; x0c]))
       = Ok (Byte.eqb "P"%byte "P"%byte, data) /\
     data = take (Z.to_nat (ord x01 + 1)) [x0a; x0b; x0c] /\
     Z.of_nat (length data) = ord x01 + 1 /\ ord x01 + 1 <= 256).
Proof.
  apply (flashRead_round_trip 0x10000 100000 (init 60 true ["P"%byte; x01; x0a; x0b; x0c])
                              "P"%byte x01 [x0a; x0b; x0c]).
  - reflexivity.
  - vm_compute. discriminate.
Defined.

Lemma ltb_ge_false (a b : Z) : b <= a -> (a <? b) = false.
Proof. intros H. now apply Z.ltb_ge. Qed.

(** A byte field of a number depends on the low bits of the number only. *)
Lemma field_low_bits (s k w : Z) :
  0 <= k -> k + 8 <= w ->
  Z.land (Z.shiftr (s mod 2 ^ w) k) 0xFF = Z.land (Z.shiftr s k) 0xFF.
Proof.
  intros Hk Hw. change 0xFF with (Z.ones 8). apply Z.bits_inj'. intros i Hi.
  rewrite !Z.land_spec, !Z.shiftr_spec by lia.
  destruct (Z.lt_ge_cases i 8) as [Hlow|Hhigh].
  - now rewrite Z.mod_pow2_bits_low by lia.
  - now rewrite Z.ones_spec_high, !andb_false_r by lia.
Qed.

Lemma field_eq (s s' k w : Z) :
  s mod 2 ^ w = s' mod 2 ^ w -> 0 <= k -> k + 8 <= w ->
  Z.land (Z.shiftr s k) 0xFF = Z.land (Z.shiftr s' k) 0xFF.
Proof.
  intros Hs Hk Hw.
  now rewrite <- (field_low_bits s k w), <- (field_low_bits s' k w), Hs by lia.
Qed.

Lemma field_eq_low (s s' w : Z) :
  s mod 2 ^ w = s' mod 2 ^ w -> 8 <= w -> Z.land s 0xFF = Z.land s' 0xFF.
Proof.
  intros Hs Hw. rewrite <- (Z.shiftr_0_r s), <- (Z.shiftr_0_r s').
  apply (field_eq s s' 0 w); [exact Hs | lia..].
Qed.

(** X27: the length byte of [readFileData] wraps.  Two lengths up to 256
    that agree modulo 256 give the same call in every respect; so a
    request for 0 bytes and one for 256 bytes cannot be told apart. *)
Theorem readFileData_length_wraps (sector offset len len' : Z) (self : BlinkyTape) :
  len <= 256 -> len' <= 256 -> len mod 256 = len' mod 256 ->
  readFileData sector offset len self = readFileData sector offset len' self.
Proof.
  intros Hlen Hlen' Hsame. unfold readFileData.
  rewrite !ltb_ge_false by lia. cbv zeta.
  replace (Z.land (len - 1) 255) with (Z.land (len' - 1) 255); [reflexivity|].
  rewrite !low_byte_mod, (Zminus_mod len), (Zminus_mod len'), Hsame. reflexivity.
Qed.

Lemma readFileData_length_wraps_witness :
  readFileData 3 0 0 (init 60 true ["P"%byte; x00; x07])
  = readFileData 3 0 256 (init 60 true ["P"%byte; x00; x07]).
Proof.
  apply (readFileData_length_wraps 3 0 0 256 (init 60 true ["P"%byte; x00; x07])).
  - lia.
  - lia.
  - reflexivity.
Defined.

Ltac same_fields Hs Ho :=
  rewrite ?(field_eq _ _ 24 32 Hs), ?(field_eq _ _ 16 32 Hs), ?(field_eq _ _ 8 32 Hs),
    ?(field_eq _ _ 0 32 Hs), ?(field_eq_low _ _ 32 Hs),
    ?(field_eq _ _ 24 32 Ho), ?(field_eq _ _ 16 32 Ho), ?(field_eq _ _ 8 32 Ho),
    ?(field_eq _ _ 0 32 Ho), ?(field_eq_low _ _ 32 Ho) by lia.

(** X28: the 32-bit fields keep the low 32 bits of their argument.  Two
    sectors (addresses, offsets, lengths) that agree modulo 2^32, such as
    a sector and the same sector plus 2^32, or -1 and 2^32 - 1, give the
    same call of [deleteFile], [getIsFile], [writeFilePage],
    [readFileData] and [flashRead]: nothing is rejected for being out of
    range. *)
Theorem fields_keep_low_32_bits (s s' o o' len : Z) (data : list byte) (self : BlinkyTape) :
  s mod 2 ^ 32 = s' mod 2 ^ 32 -> o mod 2 ^ 32 = o' mod 2 ^ 32 ->
  deleteFile s self = deleteFile s' self /\
  getIsFile s self = getIsFile s' self /\
  writeFilePage s o data self = writeFilePage s' o' data self /\
  readFileData s o len self = readFileData s' o' len self /\
  flashRead s o self = flashRead s' o' self.
Proof.
  intros Hs Ho. repeat split.
  - unfold deleteFile. now same_fields Hs Ho.
  - unfold getIsFile. now same_fields Hs Ho.
  - unfold writeFilePage. now same_fields Hs Ho.
  - unfold readFileData. now same_fields Hs Ho.
  - unfold flashRead. now same_fields Hs Ho.
Qed.

Lemma fields_keep_low_32_bits_witness :
  deleteFile (-1) (init 60 true ["P"%byte; x00; x00])
    = deleteFile (2 ^ 32 - 1) (init 60 true ["P"%byte; x00; x00]) /\
  getIsFile (-1) (init 60 true ["P"%byte; x00; x00])
    = getIsFile (2 ^ 32 - 1) (init 60 true ["P"%byte; x00; x00]) /\
  writeFilePage (-1) 5 (replicate 256 x00) (init 60 true ["P"%byte; x00; x00])
    = writeFilePage (2 ^ 32 - 1) (2 ^ 32 + 5) (replicate 256 x00)
                    (init 60 true ["P"%byte; x00; x00]) /\
  readFileData (-1) 5 16 (init 60 true ["P"%byte; x00; x00])
    = readFileData (2 ^ 32 - 1) (2 ^ 32 + 5) 16 (init 60 true ["P"%byte; x00; x00]) /\
  flashRead (-1) 5 (init 60 true ["P"%byte; x00; x00])
    = flashRead (2 ^ 32 - 1) (2 ^ 32 + 5) (init 60 true ["P"%byte; x00; x00]).
Proof.
  apply (fields_keep_low_32_bits (-1) (2 ^ 32 - 1) 5 (2 ^ 32 + 5) 16 (replicate 256 x00)
                                 (init 60 true ["P"%byte; x00; x00])).
  - reflexivity.
  - reflexivity.
Defined.

(** X29: what [writeFilePage] returns.  For a page of 256 bytes and a
    complete reply it returns whether the status byte is 'P', after 275
    bytes on the wire; a page the device refuses and a page of the wrong
    size that was never sent both come back as [False]. *)
Theorem writeFilePage_result (sector offset : Z) (data : list byte) (self : BlinkyTape)
    (h0 h1 : byte) (payload : list byte) :
  rx (serial self) = h0 :: h1 :: payload ->
  ord h1 + 1 <= Z.of_nat (length payload) ->
  length data = 256%nat ->
  fst (writeFilePage sector offset data self) = Ok (Byte.eqb h0 "P"%byte) /\
  (h0 <> "P"%byte ->
   fst (writeFilePage sector offset data self)
   = fst (writeFilePage sector offset (drop 1 data) self)) /\
  length (wire (log (serial (snd (writeFilePage sector offset data self)))))
    = (length (wire (log (serial self))) + 275)%nat.
Proof.
  intros Hrx Hlen Hpage.
  assert (Hresult : fst (writeFilePage sector offset data self) = Ok (Byte.eqb h0 "P"%byte)).
  { unfold writeFilePage. rewrite Hpage. cbn [Nat.eqb negb]. cbv zeta. build_command.
    now erewrite bind_run by (apply sendCommand_ok; eassumption). }
  split; [exact Hresult|]. split.
  - intros Hfail. rewrite Hresult, (eqb_not_P _ Hfail).
    unfold writeFilePage. rewrite length_drop, Hpage. reflexivity.
  - unfold writeFilePage. rewrite Hpage. cbn [Nat.eqb negb]. cbv zeta. build_command.
    rewrite bind_same_state by (now intros [status returnData] s).
    rewrite sendCommand_wire, !length_app, Hpage. simpl. lia.
Qed.

Lemma writeFilePage_result_witness :
  fst (writeFilePage 1 0 (replicate 256 x07) (init 60 true ["F"%byte; x00; x00]))
    = Ok (Byte.eqb "F"%byte "P"%byte) /\
  ("F"%byte <> "P"%byte ->
   fst (writeFilePage 1 0 (replicate 256 x07) (init 60 true ["F"%byte; x00; x00]))
   = fst (writeFilePage 1 0 (drop 1 (replicate 256 x07))
                        (init 60 true ["F"%byte; x00; x00]))) /\
  length (wire (log (serial (snd (writeFilePage 1 0 (replicate 256 x07)
                                    (init 60 true ["F"%byte; x00; x00]))))))
    = (length (wire (log (serial (init 60 true ["F"%byte; x00; x00])))) + 275)%nat.
Proof.
  apply (writeFilePage_result 1 0 (replicate 256 x07) (init 60 true ["F"%byte; x00; x00])
                              "F"%byte x00 [x00]).
  - reflexivity.
  - vm_compute. discriminate.
  - vm_compute. reflexivity.
Defined.

(** X30: what [readFileData] returns.  Past the guard and on a complete
    reply it returns the status and as many data bytes as the reply
    announces, from 1 to 256; the length that was asked for has no part
    in it. *)
Theorem readFileData_result (sector offset len : Z) (self : BlinkyTape)
    (h0 h1 : byte) (payload : list byte) :
  rx (serial self) = h0 :: h1 :: payload ->
  ord h1 + 1 <= Z.of_nat (length payload) ->
  len <= 256 ->
  exists data,
    fst (readFileData sector offset len self) = Ok (PyTuple (Byte.eqb h0 "P"%byte) data) /\
    data = take (Z.to_nat (ord h1 + 1)) payload /\
    Z.of_nat (length data) = ord h1 + 1 /\
    1 <= ord h1 + 1 <= 256.
Proof.
  intros Hrx Hlen Hguard. pose proof (ord_range h1) as Hh1.
  exists (take (Z.to_nat (ord h1 + 1)) payload). unfold readFileData.
  rewrite ltb_ge_false by lia. cbv zeta. build_command.
  erewrite bind_run by (apply sendCommand_ok; eassumption).
  split; [reflexivity|]. split; [reflexivity|].
  rewrite take_all_available by lia. lia.
Qed.

Lemma readFileData_result_witness :
  exists data,
    fst (readFileData 3 0 1 (init 60 true ["P"%byte; x02; x0a; x0b; x0c; x0d]))
      = Ok (PyTuple (Byte.eqb "P"%byte "P"%byte) data) /\
    data = take (Z.to_nat (ord x02 + 1)) [x0a; x0b; x0c; x0d] /\
    Z.of_nat (length data) = ord x02 + 1 /\
    1 <= ord x02 + 1 <= 256.
Proof.
  apply (readFileData_result 3 0 1 (init 60 true ["P"%byte; x02; x0a; x0b; x0c; x0d])
                             "P"%byte x02 [x0a; x0b; x0c; x0d]).
  - reflexivity.
  - vm_compute. discriminate.
  - lia.
Defined.
